(** * LS-8 emulator ([cpu.py]): a shallow embedding and its properties

    The emulator is a Python class [CPU] whose methods mutate the fields of
    [self].  Here every method becomes a function from a machine state to a
    [result]: either the state after the call, or the Python exception the
    call raises.  Python values, list indexing, arithmetic and comparison
    are modelled first, then the machine state, the instruction handlers,
    the dispatch table and the execution loop, and last the properties.
    [trace], [check_timer_interrupt] and [check_keyboard_interrupt] are
    never called by [run] and are left out; of [load], only the loop that
    copies the parsed program into memory is kept. *)

From Stdlib Require Import ZArith Bool List String Ascii Lia.
From Stdlib Require Import Floats.SpecFloat.
From stdpp Require Import base list.

Local Open Scope Z_scope.

(** ** Python values and exceptions *)

(** The values that can reach a register, a memory cell or the program
    counter: Python integers (unbounded), and Python floats (IEEE 754
    binary64), which true division [/=] in [alu] produces. *)
Inductive value : Type :=
  | VInt (z : Z)
  | VFloat (f : spec_float).

(** The exceptions the emulator can raise; none is caught in [cpu.py]. *)
Inductive exn : Type :=
  | IndexError       (* list index out of range *)
  | TypeError        (* float used as an index, in [&] or in [chr] *)
  | KeyError         (* opcode with no entry in the dispatch table *)
  | ValueError       (* [chr] argument outside range(0x110000) *)
  | OverflowError    (* integer too large for a float, or for [chr] *)
  | ZeroDivisionError
  | PlainException (msg : string).  (* [raise Exception(msg)] *)

Inductive result (A : Type) : Type :=
  | Ok (a : A)
  | Raise (e : exn).
Arguments Ok {A} a.
Arguments Raise {A} e.

#[global] Instance result_ret : MRet result := fun _ a => Ok a.
#[global] Instance result_bind : MBind result := fun _ _ k m =>
  match m with
  | Ok a => k a
  | Raise e => Raise e
  end.

(** ** Python floats *)

Module PyFloat.

Definition prec : Z := 53.
Definition emax : Z := 1024.

Definition add := SFadd prec emax.
Definition sub := SFsub prec emax.
Definition mul := SFmul prec emax.
Definition div := SFdiv prec emax.

(** An integer as a float of exponent 0; the mantissa is not yet rounded. *)
Definition raw (z : Z) : spec_float :=
  match z with
  | Z0 => S754_zero false
  | Zpos p => S754_finite false p 0
  | Zneg p => S754_finite true p 0
  end.

Definition overflow_check (f : spec_float) : result spec_float :=
  match f with
  | S754_infinity _ => Raise OverflowError
  | _ => Ok f
  end.

(** [float(z)]: round to nearest, ties to even; a result beyond the
    largest finite double raises OverflowError. *)
Definition of_int (z : Z) : result spec_float :=
  overflow_check (binary_normalize prec emax z 0 false).

(** [a / b] on two integers, [b] nonzero: the exact quotient rounded
    once; too large a quotient raises OverflowError. *)
Definition int_truediv (a b : Z) : result spec_float :=
  overflow_check (div (raw a) (raw b)).

(** The integer a float is equal to, when it is equal to one (the key
    under which a float is looked up in a dict with integer keys). *)
Definition to_int_exact (f : spec_float) : option Z :=
  match f with
  | S754_zero _ => Some 0
  | S754_finite s m e =>
      let sm := cond_Zopp s (Zpos m) in
      if 0 <=? e then Some (sm * 2 ^ e)
      else if (Zpos m) mod 2 ^ (- e) =? 0 then Some (sm / 2 ^ (- e))
      else None
  | S754_infinity _ | S754_nan => None
  end.

(** Python compares an integer with a float exactly. *)
Definition compare_int (z : Z) (f : spec_float) : option comparison :=
  match f with
  | S754_nan => None
  | S754_infinity s => Some (if s then Gt else Lt)
  | S754_zero _ => Some (z ?= 0)
  | S754_finite s m e =>
      let sm := cond_Zopp s (Zpos m) in
      if 0 <=? e then Some (z ?= sm * 2 ^ e)
      else Some (z * 2 ^ (- e) ?= sm)
  end.

End PyFloat.

(** ** Python operators on values *)

Definition to_float (v : value) : result spec_float :=
  match v with
  | VInt z => PyFloat.of_int z
  | VFloat f => Ok f
  end.

Definition arith (fz : Z -> Z -> Z)
    (ff : spec_float -> spec_float -> spec_float) (a b : value) : result value :=
  match a, b with
  | VInt x, VInt y => Ok (VInt (fz x y))
  | _, _ => x ← to_float a; y ← to_float b; Ok (VFloat (ff x y))
  end.

Definition py_add : value -> value -> result value := arith Z.add PyFloat.add.
Definition py_sub : value -> value -> result value := arith Z.sub PyFloat.sub.
Definition py_mul : value -> value -> result value := arith Z.mul PyFloat.mul.

(** Three-way comparison; [None] when the operands are unordered (a NaN). *)
Definition py_compare (a b : value) : option comparison :=
  match a, b with
  | VInt x, VInt y => Some (x ?= y)
  | VInt x, VFloat g => PyFloat.compare_int x g
  | VFloat f, VInt y => CompOpp <$> PyFloat.compare_int y f
  | VFloat f, VFloat g => SFcompare f g
  end.

Definition py_eq (a b : value) : bool :=
  match py_compare a b with Some Eq => true | _ => false end.
Definition py_lt (a b : value) : bool :=
  match py_compare a b with Some Lt => true | _ => false end.
Definition py_gt (a b : value) : bool :=
  match py_compare a b with Some Gt => true | _ => false end.

(** [a / b], true division: the result is a float whatever the operands. *)
Definition py_truediv (a b : value) : result value :=
  match a, b with
  | VInt x, VInt y =>
      if y =? 0 then Raise ZeroDivisionError
      else f ← PyFloat.int_truediv x y; Ok (VFloat f)
  | _, _ =>
      x ← to_float a; y ← to_float b;
      if SFeqb y (S754_zero false) then Raise ZeroDivisionError
      else Ok (VFloat (PyFloat.div x y))
  end.

(** [a & b]: defined on integers only. *)
Definition py_and (a b : value) : result Z :=
  match a, b with
  | VInt x, VInt y => Ok (Z.land x y)
  | _, _ => Raise TypeError
  end.

(** [chr(v)]: the code point, when [v] is an integer in range(0x110000).
    Another integer raises ValueError when it fits a C int (32 bits) and
    OverflowError when it does not; a float raises TypeError. *)
Definition py_chr (v : value) : result Z :=
  match v with
  | VInt z =>
      if (0 <=? z) && (z <? 1114112) then Ok z
      else if (-2147483648 <=? z) && (z <=? 2147483647) then Raise ValueError
      else Raise OverflowError
  | VFloat _ => Raise TypeError
  end.

(** ** Python lists: [l[i]] and [l[i] = x]

    An index must be an integer; a negative index counts from the end;
    anything outside [-len, len) raises IndexError. *)
Definition list_index {A} (l : list A) (i : value) : result nat :=
  match i with
  | VFloat _ => Raise TypeError
  | VInt z =>
      let n := Z.of_nat (length l) in
      if (0 <=? z) && (z <? n) then Ok (Z.to_nat z)
      else if (- n <=? z) && (z <? 0) then Ok (Z.to_nat (z + n))
      else Raise IndexError
  end.

Definition getitem {A} (l : list A) (i : value) : result A :=
  k ← list_index l i;
  match l !! k with
  | Some x => Ok x
  | None => Raise IndexError
  end.

Definition setitem {A} (l : list A) (i : value) (x : A) : result (list A) :=
  k ← list_index l i; Ok (<[k := x]> l).

(** ** [bin] and string indexing, as used by the interrupt scan *)

Fixpoint bin_digits (p : positive) : string :=
  match p with
  | xH => "1"
  | xO q => bin_digits q ++ "0"
  | xI q => bin_digits q ++ "1"
  end%string.

Definition bin (z : Z) : string :=
  match z with
  | Z0 => "0b0"
  | Zpos p => "0b" ++ bin_digits p
  | Zneg p => "-0b" ++ bin_digits p
  end%string.

(** [s[::-1]] *)
Definition str_reverse (s : string) : string :=
  string_of_list_ascii (rev (list_ascii_of_string s)).

(** ** The machine state

    The fields of [self] that the methods read or write.  [ir], [mar] and
    [mdr] are set to 0 by the constructor and never used again, so they are
    left out.  [fl] only ever receives the literals 0, 1, 2 and 4.
    [last_time] is a [datetime], kept as a count of microseconds.
    [stdout] collects what [print] has written, oldest first. *)

Inductive emission : Type :=
  | EmitChr (code : Z)      (* print(chr(code)) *)
  | EmitVal (v : value)     (* print(v) *)
  | EmitStr (s : string).   (* print(s) *)

Record cpu : Type := mkCpu {
  ram : list value;
  running : bool;
  interrupts_disabled : bool;
  last_time : Z;
  pc : value;
  fl : Z;
  reg : list value;
  stdout : list emission
}.

Definition with_ram (r : list value) (s : cpu) : cpu :=
  mkCpu r (running s) (interrupts_disabled s) (last_time s) (pc s) (fl s)
        (reg s) (stdout s).
Definition with_running (b : bool) (s : cpu) : cpu :=
  mkCpu (ram s) b (interrupts_disabled s) (last_time s) (pc s) (fl s)
        (reg s) (stdout s).
Definition with_interrupts_disabled (b : bool) (s : cpu) : cpu :=
  mkCpu (ram s) (running s) b (last_time s) (pc s) (fl s) (reg s) (stdout s).
Definition with_last_time (t : Z) (s : cpu) : cpu :=
  mkCpu (ram s) (running s) (interrupts_disabled s) t (pc s) (fl s) (reg s)
        (stdout s).
Definition with_pc (v : value) (s : cpu) : cpu :=
  mkCpu (ram s) (running s) (interrupts_disabled s) (last_time s) v (fl s)
        (reg s) (stdout s).
Definition with_fl (f : Z) (s : cpu) : cpu :=
  mkCpu (ram s) (running s) (interrupts_disabled s) (last_time s) (pc s) f
        (reg s) (stdout s).
Definition with_reg (r : list value) (s : cpu) : cpu :=
  mkCpu (ram s) (running s) (interrupts_disabled s) (last_time s) (pc s)
        (fl s) r (stdout s).
Definition print (e : emission) (s : cpu) : cpu :=
  mkCpu (ram s) (running s) (interrupts_disabled s) (last_time s) (pc s)
        (fl s) (reg s) (stdout s ++ [e]).

(** Register names and opcodes (the module-level constants). *)
Definition IM : value := VInt 5.
Definition IS : value := VInt 6.
Definition SP : value := VInt 7.

Definition ADD  : Z := 0xA0.  (* 0b10100000 *)
Definition CALL : Z := 0x50.  (* 0b01010000 *)
Definition COMP : Z := 0xA7.  (* 0b10100111 *)
Definition DIV  : Z := 0xA3.  (* 0b10100011 *)
Definition HLT  : Z := 0x01.  (* 0b00000001 *)
Definition INC  : Z := 0x65.  (* 0b01100101 *)
Definition INTE : Z := 0x52.  (* 0b01010010 *)
Definition IRET : Z := 0x13.  (* 0b00010011 *)
Definition JEQ  : Z := 0x55.  (* 0b01010101 *)
Definition JMP  : Z := 0x54.  (* 0b01010100 *)
Definition JNE  : Z := 0x56.  (* 0b01010110 *)
Definition LDI  : Z := 0x82.  (* 0b10000010 *)
Definition MUL  : Z := 0xA2.  (* 0b10100010 *)
Definition NOP  : Z := 0x00.  (* 0b00000000 *)
Definition PRA  : Z := 0x48.  (* 0b01001000 *)
Definition POP  : Z := 0x46.  (* 0b01000110 *)
Definition PRN  : Z := 0x47.  (* 0b01000111 *)
Definition PUSH : Z := 0x45.  (* 0b01000101 *)
Definition RET  : Z := 0x11.  (* 0b00010001 *)
Definition ST   : Z := 0x84.  (* 0b10000100 *)

Definition handler : Type := cpu -> result cpu.

(** ** Memory and register access *)

(** [ram_read(mar)]: [return self.ram[mar]] *)
Definition ram_read (s : cpu) (mar : value) : result value :=
  getitem (ram s) mar.

(** [ram_write(mar, mdr)]: [self.ram[mar] = mdr] *)
Definition ram_write (s : cpu) (mar mdr : value) : result cpu :=
  r ← setitem (ram s) mar mdr; Ok (with_ram r s).

(** [self.reg[i]] *)
Definition reg_get (s : cpu) (i : value) : result value :=
  getitem (reg s) i.

(** [self.reg[i] = v] *)
Definition reg_set (s : cpu) (i v : value) : result cpu :=
  r ← setitem (reg s) i v; Ok (with_reg r s).

(** [self.reg[i] op= rhs]: the old value is read first, then the right-hand
    side is evaluated, then the two are combined and the result stored. *)
Definition reg_aug (op : value -> value -> result value)
    (s : cpu) (i : value) (rhs : result value) : result cpu :=
  old ← reg_get s i; r ← rhs; new ← op old r; reg_set s i new.

(** [self.pc += k] *)
Definition pc_advance (k : Z) (s : cpu) : result cpu :=
  new ← py_add (pc s) (VInt k); Ok (with_pc new s).

(** [self.ram_read(self.pc + k)] *)
Definition operand (s : cpu) (k : Z) : result value :=
  a ← py_add (pc s) (VInt k); ram_read s a.

(** ** Instruction handlers *)

(** [hlt]: [self.running = False] *)
Definition hlt : handler := fun s => Ok (with_running false s).

(** [alu(op, reg_a, reg_b)].  In the DIV branch the divisor is read for the
    test and, when it is not 0, read again by [/=]. *)
Definition alu (op : string) (reg_a reg_b : value) : handler := fun s =>
  if String.eqb op "ADD" then
    reg_aug py_add s reg_a (reg_get s reg_b)
  else if String.eqb op "SUB" then
    reg_aug py_sub s reg_a (reg_get s reg_b)
  else if String.eqb op "MUL" then
    reg_aug py_mul s reg_a (reg_get s reg_b)
  else if String.eqb op "DIV" then
    d ← reg_get s reg_b;
    if py_eq d (VInt 0) then
      hlt (print (EmitStr "Error: Cannot divide by 0!") s)
    else
      reg_aug py_truediv s reg_a (reg_get s reg_b)
  else Raise (PlainException "Unsupported ALU operation").

(** The three handlers that go through the ALU share one shape:
    [self.alu(op, self.ram_read(self.pc + 1), self.ram_read(self.pc + 2))]
    then [self.pc += 3]. *)
Definition alu_instr (op : string) : handler := fun s =>
  a ← operand s 1; b ← operand s 2;
  s1 ← alu op a b s;
  pc_advance 3 s1.

Definition add : handler := alu_instr "ADD".
Definition mul : handler := alu_instr "MUL".
Definition div : handler := alu_instr "DIV".

(** [call] *)
Definition call : handler := fun s =>
  s1 ← reg_aug py_sub s SP (Ok (VInt 1));
  sp ← reg_get s1 SP;
  ret_addr ← py_add (pc s1) (VInt 2);
  s2 ← ram_write s1 sp ret_addr;
  r ← operand s2 1;
  target ← reg_get s2 r;
  Ok (with_pc target s2).

(** [comp]: when none of the three tests holds, [fl] is left as it was. *)
Definition comp : handler := fun s =>
  ra ← operand s 1; registerA ← reg_get s ra;
  rb ← operand s 2; registerB ← reg_get s rb;
  let s1 :=
    if py_eq registerA registerB then with_fl 1 s       (* 0b00000001 *)
    else if py_lt registerA registerB then with_fl 4 s  (* 0b00000100 *)
    else if py_gt registerA registerB then with_fl 2 s  (* 0b00000010 *)
    else s in
  pc_advance 3 s1.

(** [inc], [inte], [iret]: [pass] *)
Definition inc : handler := fun s => Ok s.
Definition inte : handler := fun s => Ok s.
Definition iret : handler := fun s => Ok s.

(** [self.pc = self.reg[self.ram_read(self.pc + 1)]] *)
Definition jump : handler := fun s =>
  r ← operand s 1; target ← reg_get s r; Ok (with_pc target s).

(** [jeq]: [if self.fl & 0b00000001 == 1] *)
Definition jeq : handler := fun s =>
  if Z.land (fl s) 1 =? 1 then jump s else pc_advance 2 s.

(** [jmp] *)
Definition jmp : handler := jump.

(** [jne]: [if self.fl & 0b00000001 == 0] *)
Definition jne : handler := fun s =>
  if Z.land (fl s) 1 =? 0 then jump s else pc_advance 2 s.

(** [ldi]: the right-hand side is evaluated before the index. *)
Definition ldi : handler := fun s =>
  imm ← operand s 2;
  r ← operand s 1;
  s1 ← reg_set s r imm;
  pc_advance 3 s1.

(** [nop] *)
Definition nop : handler := pc_advance 1.

(** [pop]; its return value, [self.reg[self.ram_read(self.pc - 1)]], is
    dropped by the caller but is still evaluated. *)
Definition pop : handler := fun s =>
  sp ← reg_get s SP;
  v ← ram_read s sp;
  r ← operand s 1;
  s1 ← reg_set s r v;
  s2 ← reg_aug py_add s1 SP (Ok (VInt 1));
  s3 ← pc_advance 2 s2;
  r' ← operand s3 (-1);
  _ ← reg_get s3 r';
  Ok s3.

(** [pra]: [print(chr(self.reg[self.ram_read(self.pc + 1)]))], and nothing
    else. *)
Definition pra : handler := fun s =>
  r ← operand s 1; v ← reg_get s r; c ← py_chr v;
  Ok (print (EmitChr c) s).

(** [prn] *)
Definition prn : handler := fun s =>
  r ← operand s 1; v ← reg_get s r;
  pc_advance 2 (print (EmitVal v) s).

(** [push] *)
Definition push : handler := fun s =>
  s1 ← reg_aug py_sub s SP (Ok (VInt 1));
  sp ← reg_get s1 SP;
  r ← operand s1 1;
  v ← reg_get s1 r;
  s2 ← ram_write s1 sp v;
  pc_advance 2 s2.

(** [ret] *)
Definition ret : handler := fun s =>
  sp ← reg_get s SP;
  target ← ram_read s sp;
  let s1 := with_pc target s in
  sp' ← reg_get s1 SP;
  s2 ← ram_write s1 sp' (VInt 0);
  reg_aug py_add s2 SP (Ok (VInt 1)).

(** [st] *)
Definition st : handler := fun s =>
  ra ← operand s 1; addr ← reg_get s ra;
  rb ← operand s 2; v ← reg_get s rb;
  s1 ← ram_write s addr v;
  pc_advance 3 s1.

(** ** The dispatch table

    A Python dict keyed by the opcode constants.  A key is found when it
    compares equal to an entry's key, so a float equal to an opcode finds
    that opcode's handler; any other key raises KeyError. *)
Definition dispatch_table : list (Z * handler) :=
  [ (ADD, add); (CALL, call); (COMP, comp); (DIV, div); (HLT, hlt);
    (INC, inc); (INTE, inte); (IRET, iret); (JEQ, jeq); (JMP, jmp);
    (JNE, jne); (LDI, ldi); (MUL, mul); (NOP, nop); (POP, pop);
    (PRA, pra); (PRN, prn); (PUSH, push); (RET, ret); (ST, st) ].

Definition dict_key (v : value) : option Z :=
  match v with
  | VInt z => Some z
  | VFloat f => PyFloat.to_int_exact f
  end.

Definition dispatch (key : value) : result handler :=
  match dict_key key with
  | Some k =>
      match find (fun e => fst e =? k) dispatch_table with
      | Some e => Ok (snd e)
      | None => Raise KeyError
      end
  | None => Raise KeyError
  end.

(** ** The timer

    [datetime] subtraction gives a [timedelta], normalised so that
    0 <= seconds < 86400 and 0 <= microseconds < 1000000; the sign is
    carried by [days]. *)
Record timedelta : Type := mkTimedelta {
  days : Z;
  seconds : Z;
  microseconds : Z
}.

Definition datetime_sub (a b : Z) : timedelta :=
  let us := a - b in
  mkTimedelta (us / 86400000000) (us mod 86400000000 / 1000000)
              (us mod 1000000).

(** ** The execution loop *)

(** [for register in regs: self.reg[SP] -= 1; self.ram_write(self.reg[SP], register)] *)
Fixpoint push_each (regs : list value) (s : cpu) : result cpu :=
  match regs with
  | [] => Ok s
  | register :: rest =>
      s1 ← reg_aug py_sub s SP (Ok (VInt 1));
      sp ← reg_get s1 SP;
      s2 ← ram_write s1 sp register;
      push_each rest s2
  end.

(** The body of [if bin(maskedInterrupts)[::-1][idx] == "1":], up to the
    [break].  [self.reg[:6]] is a copy taken when the inner loop starts. *)
Definition enter_interrupt (now : Z) : handler := fun s =>
  let s0 := with_interrupts_disabled true s in
  s1 ← reg_set s0 IS (VInt 0);
  s2 ← reg_aug py_sub s1 SP (Ok (VInt 1));
  sp ← reg_get s2 SP;
  s3 ← ram_write s2 sp (pc s2);
  s4 ← reg_aug py_sub s3 SP (Ok (VInt 1));
  sp' ← reg_get s4 SP;
  s5 ← ram_write s4 sp' (VInt (fl s4));
  s6 ← push_each (take 6 (reg s5)) s5;
  vector ← ram_read s6 (VInt 0xF8);
  Ok (with_last_time now (with_pc vector s6)).

(** [for idx in range(...): if bin(m)[::-1][idx] == "1": ...; break] *)
Fixpoint scan_bits (idxs : list nat) (m now : Z) (s : cpu) : result cpu :=
  match idxs with
  | [] => Ok s
  | idx :: rest =>
      match String.get idx (str_reverse (bin m)) with
      | Some c =>
          if Ascii.eqb c "1" then enter_interrupt now s
          else scan_bits rest m now s
      | None => Raise IndexError
      end
  end.

(** The first statement of the loop body; [now] is what [datetime.now()]
    returns if it is called. *)
Definition check_interrupts (now : Z) : handler := fun s =>
  if negb (interrupts_disabled s) then
    im ← reg_get s IM;
    armed ← py_and im (VInt 1);
    if negb (armed =? 0) then
      if 1 <=? seconds (datetime_sub now (last_time s)) then
        s1 ← reg_set s IS (VInt 1);
        im1 ← reg_get s1 IM;
        is1 ← reg_get s1 IS;
        maskedInterrupts ← py_and im1 is1;
        let n := Z.of_nat (String.length (bin maskedInterrupts)) - 2 in
        scan_bits (seq 0 (Z.to_nat n)) maskedInterrupts now s1
      else Ok s
    else Ok s
  else Ok s.

(** [self.dispatch[self.ram[self.pc]]()] *)
Definition execute : handler := fun s =>
  opcode ← getitem (ram s) (pc s);
  h ← dispatch opcode;
  h s.

(** One iteration of [while self.running:]. *)
Definition step (now : Z) : handler := fun s =>
  s1 ← check_interrupts now s; execute s1.

(** The [while] loop, for at most [fuel] iterations; [clock i] is the time
    at iteration [i].  [None]: still running when the fuel ran out. *)
Fixpoint run_loop (fuel : nat) (clock : nat -> Z) (s : cpu)
    : option (result cpu) :=
  if running s then
    match fuel with
    | O => None
    | S fuel' =>
        match step (clock O) s with
        | Ok s' => run_loop fuel' (fun i => clock (S i)) s'
        | Raise e => Some (Raise e)
        end
    end
  else Some (Ok s).

(** [run]: [self.running = True], then the loop. *)
Definition run (fuel : nat) (clock : nat -> Z) (s : cpu)
    : option (result cpu) :=
  run_loop fuel clock (with_running true s).

(** ** Construction and loading *)

(** [CPU()], constructed at time [now]. *)
Definition new_cpu (now : Z) : cpu :=
  mkCpu (replicate 256 (VInt 0)) false false now (VInt 0) 0
        [VInt 0; VInt 0; VInt 0; VInt 0; VInt 0; VInt 0; VInt 0; VInt 0xF4]
        [].

(** The last loop of [load], for a program already parsed:
    [self.ram[address] = instruction; address += 1]. *)
Fixpoint load_from (address : Z) (program : list Z) (s : cpu) : result cpu :=
  match program with
  | [] => Ok s
  | instruction :: rest =>
      s1 ← ram_write s (VInt address) (VInt instruction);
      load_from (address + 1) rest s1
  end.

Definition load (program : list Z) : handler := load_from 0 program.

(** The program [load] uses when no file is given (print8.ls8). *)
Definition print8 : list Z := [LDI; 0; 8; PRN; 0; HLT].

(** ** [trace] and the unused interrupt checks *)

(** [check_timer_interrupt]: [if self.reg[IM]: pass] *)
Definition check_timer_interrupt : handler := fun s =>
  _ ← reg_get s IM; Ok s.

(** [check_keyboard_interrupt]: [pass] *)
Definition check_keyboard_interrupt : handler := fun s => Ok s.

Definition hex_digit (d : Z) : ascii :=
  nth (Z.to_nat d) (list_ascii_of_string "0123456789ABCDEF") "0"%char.

Fixpoint hex_digits (fuel : nat) (n : Z) (acc : string) : string :=
  match fuel with
  | O => acc
  | S fuel' =>
      let acc' := String (hex_digit (n mod 16)) acc in
      if n / 16 =? 0 then acc' else hex_digits fuel' (n / 16) acc'
  end.

(** ["%X" % n] for [n] not negative: upper-case hexadecimal digits. *)
Definition hex_upper (n : Z) : string :=
  hex_digits (S (Z.to_nat (Z.log2 n))) n "".

(** ["%02X" % v]: an integer is padded with zeros to two characters, the
    sign counting as one; a float raises TypeError. *)
Definition format_02X (v : value) : result string :=
  match v with
  | VFloat _ => Raise TypeError
  | VInt n =>
      if n <? 0 then Ok ("-" ++ hex_upper (- n))%string
      else if n <? 16 then Ok ("0" ++ hex_upper n)%string
      else Ok (hex_upper n)
  end.

(** [for i in range(8): print(" %02X" % self.reg[i], end='')], as the text
    written. *)
Fixpoint trace_regs (idxs : list Z) (s : cpu) : result string :=
  match idxs with
  | [] => Ok ""%string
  | i :: rest =>
      v ← reg_get s (VInt i);
      f ← format_02X v;
      tail ← trace_regs rest s;
      Ok (" " ++ f ++ tail)%string
  end.

(** [trace]: the arguments of the first [print] are evaluated, then
    formatted, then each register is formatted, then [print()] ends the
    line.  The pieces are written without a newline between them, so what
    reaches the output is one line, recorded as one emission. *)
Definition trace : handler := fun s =>
  b0 ← ram_read s (pc s);
  b1 ← operand s 1;
  b2 ← operand s 2;
  f_pc ← format_02X (pc s);
  f_fl ← format_02X (VInt (fl s));
  f0 ← format_02X b0;
  f1 ← format_02X b1;
  f2 ← format_02X b2;
  regs ← trace_regs [0; 1; 2; 3; 4; 5; 6; 7] s;
  Ok (print (EmitStr ("TRACE: " ++ f_pc ++ " | " ++ f_fl ++ " | "
                        ++ f0 ++ " " ++ f1 ++ " " ++ f2 ++ " |" ++ regs)%string)
         s).

(** * States and predicates used by the properties *)

(** ** Well-formed states

    The constructor allocates 256 memory cells and 8 registers; no method
    resizes either list. *)
Definition wf (s : cpu) : Prop :=
  length (ram s) = 256%nat /\ length (reg s) = 8%nat.

(** The machine built at time [now] with [program] loaded at address 0
    (a program longer than the memory leaves the fresh machine). *)
Definition boot (now : Z) (program : list Z) : cpu :=
  match load program (new_cpu now) with
  | Ok s => s
  | Raise _ => new_cpu now
  end.


(** [LDI R0,72; PRA R0; HLT], after the LDI has run. *)
Definition pra_state : cpu :=
  with_pc (VInt 3)
    (with_reg (<[0%nat := VInt 72]> (reg (new_cpu 0)))
       (boot 0 [LDI; 0; 72; PRA; 0; HLT])).

(** [LDI R0,6; DIV R0,R1; PRN R0; HLT] with R1 still 0, after the LDI. *)
Definition div_zero_state : cpu :=
  with_running true
    (with_pc (VInt 3)
       (with_reg (<[0%nat := VInt 6]> (reg (new_cpu 0)))
          (boot 0 [LDI; 0; 6; DIV; 0; 1; PRN; 0; HLT]))).

(** [LDI R0,7; LDI R1,2; DIV R0,R1; HLT] *)
Definition seven_by_two : list Z := [LDI; 0; 7; LDI; 1; 2; DIV; 0; 1; HLT].

(** [LDI R0,3; LDI R1,9; CMP R0,R1; HLT], after the two LDI. *)
Definition comp_state : cpu :=
  with_pc (VInt 6)
    (with_reg (<[1%nat := VInt 9]> (<[0%nat := VInt 3]> (reg (new_cpu 0))))
       (boot 0 [LDI; 0; 3; LDI; 1; 9; COMP; 0; 1; HLT])).

(** The claim as the specification states it, for LDI: an operand byte [b]
    selects register [b mod 8]. *)
Definition ldi_selects_low_3_bits (s : cpu) : Prop :=
  forall b imm,
    0 <= b <= 255 -> operand s 1 = Ok (VInt b) -> operand s 2 = Ok imm ->
    exists s', ldi s = Ok s' /\ reg_get s' (VInt (b mod 8)) = Ok imm.

(** [LDI R1,5; PUSH R1; POP R1; HLT], after the LDI. *)
Definition push_state : cpu :=
  with_pc (VInt 3)
    (with_reg (<[1%nat := VInt 5]> (reg (new_cpu 0)))
       (boot 0 [LDI; 1; 5; PUSH; 1; POP; 1; HLT])).

(** [push_state] after its PUSH: 5 stored at 0xF3, SP = 0xF3, PC = 5. *)
Definition pushed_state : cpu :=
  with_pc (VInt 5)
    (with_ram (<[243%nat := VInt 5]> (ram push_state))
       (with_reg (<[7%nat := VInt 243]> (reg push_state)) push_state)).

(** The claim as the specification states it, for the CALL half: PC
    becomes the value the operand register held when CALL started. *)
Definition call_jumps_to_operand_register (s : cpu) : Prop :=
  forall r A,
    operand s 1 = Ok r -> reg_get s r = Ok A ->
    exists s1, call s = Ok s1 /\ pc s1 = A.

(** [CALL R7; HLT] on a fresh machine: R7 (SP) holds 0xF4. *)
Definition call_sp_state : cpu := boot 0 [CALL; 7; HLT].

(** [CALL R0] with R0 = 9 and the stack pointer at 2, so that the return
    address is pushed onto the operand byte of the CALL itself. *)
Definition call_overlap_state : cpu :=
  with_reg (<[7%nat := VInt 2]> (<[0%nat := VInt 9]> (reg (new_cpu 0))))
    (boot 0 [CALL; 0; HLT]).

(** [LDI R1,6; CALL R1; HLT; ...; RET] with the subroutine at address 6,
    after the LDI. *)
Definition call_state : cpu :=
  with_pc (VInt 3)
    (with_reg (<[1%nat := VInt 6]> (reg (new_cpu 0)))
       (boot 0 [LDI; 1; 6; CALL; 1; HLT; RET])).

(** The memory cell that the integer address [a] in [-256, 256) denotes. *)
Definition cell (a : Z) : nat := Z.to_nat (a mod 256).

(** Memory after pushing [vals] in order from stack pointer [sp]. *)
Fixpoint stack_store (cells : list value) (sp : Z) (vals : list value)
    : list value :=
  match vals with
  | [] => cells
  | v :: rest => stack_store (<[cell (sp - 1) := v]> cells) (sp - 1) rest
  end.

(** The state in which the interrupt sequence leaves the machine. *)
Definition interrupted (now : Z) (s : cpu) (sp : Z) (saved : list value)
    (regs : list value) : cpu :=
  let cells := stack_store (ram s) sp saved in
  mkCpu cells (running s) true now
        (default (VInt 0) (cells !! 248%nat)) (fl s) regs (stdout s).

(** [LDI R5,1; NOP; NOP; HLT] with the handler address 0x20 stored in the
    vector cell 0xF8, after the LDI; the machine was built at time 0. *)
Definition armed_state : cpu :=
  with_running true
    (with_pc (VInt 3)
       (with_reg (<[5%nat := VInt 1]> (reg (new_cpu 0)))
          (with_ram (<[248%nat := VInt 0x20]> (ram (boot 0 [LDI; 5; 1; NOP; NOP; HLT])))
             (boot 0 [LDI; 5; 1; NOP; NOP; HLT])))).

(** Durations in microseconds, the unit of [last_time]. *)
Definition one_second : Z := 1000000.
Definition one_day : Z := 86400 * one_second.

(** A value that is a Python integer. *)
Definition is_int (v : value) : Prop := exists z, v = VInt z.

(** The fields that no memory or register access touches are equal. *)
Definition same_control (s s' : cpu) : Prop :=
  running s' = running s
  /\ interrupts_disabled s' = interrupts_disabled s
  /\ last_time s' = last_time s
  /\ pc s' = pc s
  /\ fl s' = fl s
  /\ stdout s' = stdout s.

(** The three legal values of FL, and its initial value 0. *)
Definition fl_legal (f : Z) : Prop := f = 0 \/ f = 1 \/ f = 2 \/ f = 4.

(** The opcodes that have an entry in the dispatch table. *)
Definition opcodes : list Z := map fst dispatch_table.

(** A machine whose R0 holds a NaN, with [CMP R0,R0] at PC and FL = 4. *)
Definition nan_state : cpu :=
  with_fl 4
    (with_reg (<[0%nat := VFloat S754_nan]> (reg (new_cpu 0)))
       (boot 0 [COMP; 0; 0; HLT])).

(** A program that manufactures a NaN: 2 / 1 is the float 2.0, ten
    squarings overflow to infinity, and infinity times 0 is NaN; it then
    compares R0 with itself. *)
Definition nan_program : list Z :=
  [LDI; 0; 2; LDI; 1; 1; DIV; 0; 1]
  ++ concat (replicate 10 [MUL; 0; 0])
  ++ [LDI; 2; 0; MUL; 0; 2; COMP; 0; 0; HLT].

(** [ST R0,R1; HLT] with R0 = -2 and R1 = 77. *)
Definition st_state : cpu :=
  with_reg (<[1%nat := VInt 77]> (<[0%nat := VInt (-2)]> (reg (new_cpu 0))))
    (boot 0 [ST; 0; 1; HLT]).

(** * Properties *)

Lemma bind_Ok {A B} (k : A -> result B) (a : A) : (Ok a ≫= k) = k a.
Proof. reflexivity. Qed.

Lemma bind_Raise {A B} (k : A -> result B) (e : exn) :
  (Raise e ≫= k) = Raise e.
Proof. reflexivity. Qed.

(** The access functions stay folded under simplification, so that goals
    keep the vocabulary of the source. *)
Arguments list_index : simpl never.
Arguments getitem : simpl never.
Arguments setitem : simpl never.
Arguments ram_read : simpl never.
Arguments ram_write : simpl never.
Arguments reg_get : simpl never.
Arguments reg_set : simpl never.
Arguments reg_aug : simpl never.
Arguments pc_advance : simpl never.
Arguments operand : simpl never.
Arguments py_eq : simpl never.
Arguments py_truediv : simpl never.
Arguments dispatch : simpl never.

Lemma wf_new_cpu now : wf (new_cpu now).
Proof. split; reflexivity. Qed.

(** ** Python list indexing *)

Section Indexing.
Context {A : Type}.
Implicit Types (l : list A) (z : Z) (k : nat) (x : A).

Lemma list_index_nonneg l z :
  0 <= z < Z.of_nat (length l) -> list_index l (VInt z) = Ok (Z.to_nat z).
Proof.
  intros [H0 H1]. unfold list_index.
  apply Z.leb_le in H0. apply Z.ltb_lt in H1. now rewrite H0, H1.
Qed.

Lemma list_index_negative l z :
  - Z.of_nat (length l) <= z < 0 ->
  list_index l (VInt z) = Ok (Z.to_nat (z + Z.of_nat (length l))).
Proof.
  intros [H0 H1]. unfold list_index.
  destruct (Z.leb_spec 0 z) as [Hz|_]; [lia|]. cbn [andb].
  apply Z.leb_le in H0. apply Z.ltb_lt in H1. now rewrite H0, H1.
Qed.

Lemma list_index_outside l z :
  z < - Z.of_nat (length l) \/ Z.of_nat (length l) <= z ->
  list_index l (VInt z) = Raise IndexError.
Proof.
  intros H. unfold list_index.
  destruct (Z.leb_spec 0 z), (Z.ltb_spec z (Z.of_nat (length l)));
    cbn [andb]; try lia;
    destruct (Z.leb_spec (- Z.of_nat (length l)) z), (Z.ltb_spec z 0);
    cbn [andb]; try lia; reflexivity.
Qed.

(** Both in-range cases at once: the cell is [z] modulo the length. *)
Lemma list_index_mod l z :
  - Z.of_nat (length l) <= z < Z.of_nat (length l) ->
  list_index l (VInt z) = Ok (Z.to_nat (z mod Z.of_nat (length l))).
Proof.
  intros H. destruct (Z.leb_spec 0 z) as [Hz|Hz].
  - rewrite list_index_nonneg by lia. now rewrite Z.mod_small by lia.
  - rewrite list_index_negative by lia. f_equal. f_equal.
    apply (Z.mod_unique _ _ (-1)); lia.
Qed.

Lemma list_index_bound l i k : list_index l i = Ok k -> (k < length l)%nat.
Proof.
  destruct i as [z|f]; [|discriminate]. unfold list_index.
  destruct (Z.leb_spec 0 z), (Z.ltb_spec z (Z.of_nat (length l)));
    cbn [andb]; try (intros [= <-]; lia);
    destruct (Z.leb_spec (- Z.of_nat (length l)) z), (Z.ltb_spec z 0);
    cbn [andb]; try discriminate; intros [= <-]; lia.
Qed.

Lemma list_index_length l l' i :
  length l = length l' -> list_index l i = list_index l' i.
Proof. intros H. destruct i; [|reflexivity]. unfold list_index. now rewrite H. Qed.

Lemma getitem_lookup l i k :
  list_index l i = Ok k -> exists x, l !! k = Some x /\ getitem l i = Ok x.
Proof.
  intros H. pose proof (list_index_bound _ _ _ H) as Hk.
  destruct (lookup_lt_is_Some_2 l k Hk) as [x Hx].
  exists x. split; [exact Hx|]. unfold getitem. rewrite H. cbn. now rewrite Hx.
Qed.

Lemma getitem_Ok l i x :
  getitem l i = Ok x -> exists k, list_index l i = Ok k /\ l !! k = Some x.
Proof.
  unfold getitem. destruct (list_index l i) as [k|e] eqn:E; [|discriminate].
  cbn. destruct (l !! k) as [y|] eqn:Ey; [|discriminate].
  intros [= <-]. eauto.
Qed.

Lemma setitem_Ok l i k x :
  list_index l i = Ok k -> setitem l i x = Ok (<[k := x]> l).
Proof. intros H. unfold setitem. now rewrite H. Qed.

Lemma getitem_insert_same l i k x :
  list_index l i = Ok k -> getitem (<[k := x]> l) i = Ok x.
Proof.
  intros H. unfold getitem.
  rewrite (list_index_length (<[k := x]> l) l) by apply length_insert.
  rewrite H. cbn.
  now rewrite list_lookup_insert_eq by (eapply list_index_bound; eauto).
Qed.

Lemma getitem_insert_other l i j k x :
  list_index l i = Ok k -> list_index l j <> Ok k ->
  getitem (<[k := x]> l) j = getitem l j.
Proof.
  intros Hi Hj. unfold getitem.
  rewrite (list_index_length (<[k := x]> l) l) by apply length_insert.
  destruct (list_index l j) as [k'|e]; [|reflexivity]. cbn.
  rewrite list_lookup_insert_ne; [reflexivity|]. congruence.
Qed.

End Indexing.

(** ** Memory bounds *)

Lemma ram_write_Ok s mar mdr k :
  list_index (ram s) mar = Ok k ->
  ram_write s mar mdr = Ok (with_ram (<[k := mdr]> (ram s)) s).
Proof. intros H. unfold ram_write. now rewrite (setitem_Ok _ _ k). Qed.

Lemma reg_set_Ok s i v k :
  list_index (reg s) i = Ok k ->
  reg_set s i v = Ok (with_reg (<[k := v]> (reg s)) s).
Proof. intros H. unfold reg_set. now rewrite (setitem_Ok _ _ k). Qed.




(** ** The program counter *)

Lemma py_add_int a b : py_add (VInt a) (VInt b) = Ok (VInt (a + b)).
Proof. reflexivity. Qed.

Lemma py_sub_int a b : py_sub (VInt a) (VInt b) = Ok (VInt (a - b)).
Proof. reflexivity. Qed.

(** An operand can only be fetched when the program counter is an integer:
    a float plus an integer is a float, and a float is not an index. *)
Lemma operand_pc_int s k v : operand s k = Ok v -> exists p, pc s = VInt p.
Proof.
  unfold operand. destruct (pc s) as [p|f]; [eauto|].
  unfold py_add, arith. cbn. destruct (PyFloat.of_int k); discriminate.
Qed.

Lemma fetch_pc_int s v : getitem (ram s) (pc s) = Ok v -> exists p, pc s = VInt p.
Proof. destruct (pc s) as [p|f]; [eauto|discriminate]. Qed.

Lemma pc_advance_int s p k :
  pc s = VInt p -> pc_advance k s = Ok (with_pc (VInt (p + k)) s).
Proof. intros H. unfold pc_advance. now rewrite H. Qed.

Lemma operand_int s p k :
  pc s = VInt p -> operand s k = ram_read s (VInt (p + k)).
Proof. intros H. unfold operand. now rewrite H. Qed.

(** ** PRA *)

Lemma dispatch_PRA : dispatch (VInt PRA) = Ok pra.
Proof. reflexivity. Qed.

(** C1, what the code does: when the byte at PC is PRA, the step emits the
    character whose code is the operand register's value, and leaves the
    program counter where it was; [pra] has no [self.pc += 2]. *)
Theorem pra_emits_without_advancing (s : cpu) (r v : value) (c : Z) :
  getitem (ram s) (pc s) = Ok (VInt PRA) ->
  operand s 1 = Ok r -> reg_get s r = Ok v -> py_chr v = Ok c ->
  execute s = Ok (print (EmitChr c) s)
  /\ pc (print (EmitChr c) s) = pc s.
Proof.
  intros Hop Hr Hv Hc. split; [|reflexivity].
  unfold execute. rewrite Hop, bind_Ok, dispatch_PRA, bind_Ok.
  unfold pra. now rewrite Hr, bind_Ok, Hv, bind_Ok, Hc.
Qed.

Lemma pra_emits_without_advancing_witness :
  execute pra_state = Ok (print (EmitChr 72) pra_state)
  /\ pc (print (EmitChr 72) pra_state) = VInt 3.
Proof.
  apply (pra_emits_without_advancing pra_state (VInt 0) (VInt 72) 72);
    reflexivity.
Defined.

(** The first step of the program reaches [pra_state]. *)
Lemma pra_state_reached :
  step 0 (with_running true (boot 0 [LDI; 0; 72; PRA; 0; HLT]))
  = Ok (with_running true pra_state).
Proof. reflexivity. Qed.

(** With PC stuck on the PRA, the loop prints the character again and
    again and never reaches the HLT that follows. *)
Lemma pra_loops_forever fuel clock out :
  run_loop fuel clock
    (mkCpu (ram pra_state) true false 0 (VInt 3) 0 (reg pra_state) out)
  = None.
Proof.
  revert clock out. induction fuel as [|fuel IH]; intros clock out.
  - reflexivity.
  - cbn [run_loop running].
    replace (step (clock O) _)
      with (Ok (mkCpu (ram pra_state) true false 0 (VInt 3) 0 (reg pra_state)
                  (out ++ [EmitChr 72]))) by reflexivity.
    apply IH.
Qed.

(** ** DIV and the ALU *)

Lemma alu_DIV s reg_a reg_b :
  alu "DIV" reg_a reg_b s =
  (d ← reg_get s reg_b;
   if py_eq d (VInt 0) then
     hlt (print (EmitStr "Error: Cannot divide by 0!") s)
   else reg_aug py_truediv s reg_a (reg_get s reg_b)).
Proof. reflexivity. Qed.

Lemma dispatch_DIV : dispatch (VInt DIV) = Ok div.
Proof. reflexivity. Qed.

(** The DIV handler on its fault path, in full. *)
Lemma div_zero_result s p ra rb d :
  pc s = VInt p ->
  operand s 1 = Ok ra -> operand s 2 = Ok rb ->
  reg_get s rb = Ok d -> py_eq d (VInt 0) = true ->
  div s = Ok (with_pc (VInt (p + 3))
               (with_running false
                  (print (EmitStr "Error: Cannot divide by 0!") s))).
Proof.
  intros Hpc Ha Hb Hd Hz. unfold div, alu_instr.
  rewrite Ha, bind_Ok, Hb, bind_Ok, alu_DIV, Hd, bind_Ok, Hz.
  unfold hlt. rewrite bind_Ok. now apply pc_advance_int.
Qed.

Lemma run_loop_halted fuel clock s :
  running s = false -> run_loop fuel clock s = Some (Ok s).
Proof. intros H. destruct fuel; cbn; now rewrite H. Qed.

(** C4: when the byte at PC is DIV and the divisor register compares equal
    to 0, executing the instruction raises nothing; it prints the
    divide-by-zero message and clears [running], so that the loop runs no
    further instruction. *)
Theorem div_by_zero_halts (s : cpu) (ra rb d : value) :
  getitem (ram s) (pc s) = Ok (VInt DIV) ->
  operand s 1 = Ok ra -> operand s 2 = Ok rb ->
  reg_get s rb = Ok d -> py_eq d (VInt 0) = true ->
  exists s',
    execute s = Ok s'
    /\ running s' = false
    /\ stdout s' = stdout s ++ [EmitStr "Error: Cannot divide by 0!"]
    /\ forall fuel clock, run_loop fuel clock s' = Some (Ok s').
Proof.
  intros Hop Ha Hb Hd Hz.
  destruct (fetch_pc_int _ _ Hop) as [p Hpc].
  eexists. split; [|split; [|split]].
  - unfold execute. rewrite Hop, bind_Ok, dispatch_DIV, bind_Ok.
    exact (div_zero_result s p ra rb d Hpc Ha Hb Hd Hz).
  - reflexivity.
  - reflexivity.
  - intros fuel clock. now apply run_loop_halted.
Qed.

Lemma div_by_zero_halts_witness :
  exists s',
    execute div_zero_state = Ok s'
    /\ running s' = false
    /\ stdout s' = [EmitStr "Error: Cannot divide by 0!"]
    /\ forall fuel clock, run_loop fuel clock s' = Some (Ok s').
Proof.
  apply (div_by_zero_halts div_zero_state (VInt 0) (VInt 1) (VInt 0));
    reflexivity.
Defined.

Lemma div_advances_pc s s' p :
  pc s = VInt p -> div s = Ok s' -> pc s' = VInt (p + 3).
Proof.
  intros Hpc. unfold div, alu_instr.
  destruct (operand s 1) as [a|]; [|discriminate].
  destruct (operand s 2) as [b|]; [|discriminate].
  rewrite !bind_Ok.
  destruct (alu "DIV" a b s) as [s1|] eqn:Halu; [|discriminate].
  rewrite bind_Ok.
  assert (Hpc1 : pc s1 = VInt p).
  { rewrite alu_DIV in Halu.
    destruct (reg_get s b) as [d|] eqn:Hd; [|discriminate].
    rewrite bind_Ok in Halu. destruct (py_eq d (VInt 0)).
    - injection Halu as <-. exact Hpc.
    - unfold reg_aug, reg_set in Halu.
      destruct (reg_get s a) as [x|]; [|discriminate].
      rewrite !bind_Ok in Halu.
      destruct (py_truediv x d) as [q|]; [|discriminate].
      rewrite bind_Ok in Halu.
      destruct (setitem (reg s) a q) as [regs|]; [|discriminate].
      injection Halu as <-. exact Hpc. }
  rewrite (pc_advance_int s1 p 3 Hpc1). now intros [= <-].
Qed.

(** C10: on the divide-by-zero path DIV changes neither a register nor a
    memory cell (nor FL, nor the interrupt latch and timer); it clears
    [running], and PC advances by 3 as it does when DIV succeeds. *)
Theorem div_by_zero_preserves_state (s : cpu) (p : Z) (ra rb d : value) :
  pc s = VInt p ->
  operand s 1 = Ok ra -> operand s 2 = Ok rb ->
  reg_get s rb = Ok d -> py_eq d (VInt 0) = true ->
  exists s',
    div s = Ok s'
    /\ reg s' = reg s /\ ram s' = ram s /\ fl s' = fl s
    /\ interrupts_disabled s' = interrupts_disabled s
    /\ last_time s' = last_time s
    /\ running s' = false
    /\ pc s' = VInt (p + 3)
    /\ (forall t t', pc t = VInt p -> div t = Ok t' -> pc t' = VInt (p + 3)).
Proof.
  intros Hpc Ha Hb Hd Hz. eexists. split.
  - exact (div_zero_result s p ra rb d Hpc Ha Hb Hd Hz).
  - repeat split. intros t t'. apply div_advances_pc.
Qed.

Lemma div_by_zero_preserves_state_witness :
  exists s',
    div div_zero_state = Ok s'
    /\ reg s' = reg div_zero_state /\ ram s' = ram div_zero_state
    /\ fl s' = fl div_zero_state
    /\ interrupts_disabled s' = interrupts_disabled div_zero_state
    /\ last_time s' = last_time div_zero_state
    /\ running s' = false
    /\ pc s' = VInt (3 + 3)
    /\ (forall t t', pc t = VInt 3 -> div t = Ok t' -> pc t' = VInt (3 + 3)).
Proof.
  apply (div_by_zero_preserves_state div_zero_state 3 (VInt 0) (VInt 1) (VInt 0));
    reflexivity.
Defined.

(** ** The ALU on integers *)

(** ADD, SUB and MUL on two integer registers store the integer result. *)
Lemma alu_integer_ops s reg_a reg_b a b k :
  list_index (reg s) reg_a = Ok k ->
  reg_get s reg_a = Ok (VInt a) -> reg_get s reg_b = Ok (VInt b) ->
  alu "ADD" reg_a reg_b s = Ok (with_reg (<[k := VInt (a + b)]> (reg s)) s)
  /\ alu "SUB" reg_a reg_b s = Ok (with_reg (<[k := VInt (a - b)]> (reg s)) s)
  /\ alu "MUL" reg_a reg_b s = Ok (with_reg (<[k := VInt (a * b)]> (reg s)) s).
Proof.
  intros Hk Ha Hb.
  repeat split;
    cbn [alu String.eqb Ascii.eqb Bool.eqb]; unfold reg_aug;
    rewrite Ha, bind_Ok, Hb, bind_Ok; cbn [py_add py_sub py_mul arith];
    rewrite bind_Ok; now apply reg_set_Ok.
Qed.

(** DIV on two integer registers, divisor not 0: whenever the division
    returns, what it stores is a float, never an integer. *)
Lemma alu_div_stores_float s s' reg_a reg_b a b :
  reg_get s reg_a = Ok (VInt a) -> reg_get s reg_b = Ok (VInt b) -> b <> 0 ->
  alu "DIV" reg_a reg_b s = Ok s' ->
  exists f, reg_get s' reg_a = Ok (VFloat f).
Proof.
  intros Ha Hb Hnz. rewrite alu_DIV, Hb, bind_Ok.
  replace (py_eq (VInt b) (VInt 0)) with false.
  2:{ unfold py_eq. cbn. destruct (Z.compare_spec b 0); congruence. }
  unfold reg_aug. rewrite Ha, !bind_Ok.
  unfold py_truediv.
  destruct (Z.eqb_spec b 0) as [|_]; [contradiction|].
  destruct (PyFloat.int_truediv a b) as [f|]; [|discriminate].
  rewrite !bind_Ok. unfold reg_set, setitem.
  destruct (list_index (reg s) reg_a) as [k|] eqn:Hk; [|discriminate].
  rewrite !bind_Ok. intros [= <-]. exists f.
  unfold reg_get. cbn [reg with_reg]. now apply getitem_insert_same.
Qed.

(** C9, the failing run: dividing the integer 7 by the integer 2 leaves the
    float 3.5 (7881299347898368 * 2^-51) in R0; all registers held
    integers before the DIV. *)
Theorem div_result_is_a_float :
  exists s2 s4,
    step 0 (with_running true (boot 0 seven_by_two)) ≫= step 0 = Ok s2
    /\ reg_get s2 (VInt 0) = Ok (VInt 7) /\ reg_get s2 (VInt 1) = Ok (VInt 2)
    /\ getitem (ram s2) (pc s2) = Ok (VInt DIV)
    /\ run 4 (fun _ => 0) (boot 0 seven_by_two) = Some (Ok s4)
    /\ reg_get s4 (VInt 0)
       = Ok (VFloat (S754_finite false 7881299347898368 (-51)))
    /\ forall z, reg_get s4 (VInt 0) <> Ok (VInt z).
Proof.
  do 2 eexists.
  split; [vm_compute; reflexivity|].
  split; [vm_compute; reflexivity|].
  split; [vm_compute; reflexivity|].
  split; [vm_compute; reflexivity|].
  split; [vm_compute; reflexivity|].
  split; [vm_compute; reflexivity|].
  intros z. vm_compute. discriminate.
Qed.

(** Even an exact quotient is stored as a float: 4 / 2 gives 2.0. *)
Lemma div_exact_quotient_is_a_float :
  py_truediv (VInt 4) (VInt 2)
  = Ok (VFloat (S754_finite false 4503599627370496 (-51))).
Proof. vm_compute. reflexivity. Qed.

(** ** COMP *)

(** COMP on operands that Python can order. *)
Lemma comp_ordered s p ra rb A B c :
  pc s = VInt p ->
  operand s 1 = Ok ra -> reg_get s ra = Ok A ->
  operand s 2 = Ok rb -> reg_get s rb = Ok B ->
  py_compare A B = Some c ->
  comp s = Ok (with_pc (VInt (p + 3))
                 (with_fl (match c with Eq => 1 | Lt => 4 | Gt => 2 end) s)).
Proof.
  intros Hpc Ha HA Hb HB Hc. unfold comp.
  rewrite Ha, bind_Ok, HA, bind_Ok, Hb, bind_Ok, HB, bind_Ok.
  unfold py_eq, py_lt, py_gt. rewrite Hc.
  destruct c; now apply pc_advance_int.
Qed.

(** When an operand is a NaN none of the three tests holds and FL keeps
    its old value. *)
Lemma comp_unordered_keeps_fl s p ra rb A B :
  pc s = VInt p ->
  operand s 1 = Ok ra -> reg_get s ra = Ok A ->
  operand s 2 = Ok rb -> reg_get s rb = Ok B ->
  py_compare A B = None ->
  comp s = Ok (with_pc (VInt (p + 3)) s).
Proof.
  intros Hpc Ha HA Hb HB Hc. unfold comp.
  rewrite Ha, bind_Ok, HA, bind_Ok, Hb, bind_Ok, HB, bind_Ok.
  unfold py_eq, py_lt, py_gt. rewrite Hc. now apply pc_advance_int.
Qed.

(** C8: COMP on registers holding the integers [a] and [b] sets FL to
    exactly one of the three flag bits: Equal (bit 0, value 1) iff a = b,
    Less-than (bit 2, value 4) iff a < b, Greater-than (bit 1, value 2) iff
    a > b; PC advances by 3 and nothing else changes. *)
Theorem comp_sets_exactly_one_flag (s : cpu) (p a b : Z) (ra rb : value) :
  pc s = VInt p ->
  operand s 1 = Ok ra -> reg_get s ra = Ok (VInt a) ->
  operand s 2 = Ok rb -> reg_get s rb = Ok (VInt b) ->
  exists f,
    comp s = Ok (with_pc (VInt (p + 3)) (with_fl f s))
    /\ (f = 1 \/ f = 2 \/ f = 4)
    /\ (Z.testbit f 0 = true <-> a = b)
    /\ (Z.testbit f 2 = true <-> a < b)
    /\ (Z.testbit f 1 = true <-> a > b).
Proof.
  intros Hpc Ha HA Hb HB.
  pose proof (comp_ordered s p ra rb (VInt a) (VInt b) (a ?= b)
                Hpc Ha HA Hb HB eq_refl) as H.
  eexists. split; [exact H|].
  destruct (Z.compare_spec a b); cbn; repeat split; intros; try lia;
    try discriminate; auto.
Qed.

Lemma comp_sets_exactly_one_flag_witness :
  exists f,
    comp comp_state = Ok (with_pc (VInt (6 + 3)) (with_fl f comp_state))
    /\ (f = 1 \/ f = 2 \/ f = 4)
    /\ (Z.testbit f 0 = true <-> 3 = 9)
    /\ (Z.testbit f 2 = true <-> 3 < 9)
    /\ (Z.testbit f 1 = true <-> 3 > 9).
Proof.
  apply (comp_sets_exactly_one_flag comp_state 6 3 9 (VInt 0) (VInt 1));
    reflexivity.
Defined.

(** ** Register operands *)

Lemma list_index_SP s : wf s -> list_index (reg s) SP = Ok 7%nat.
Proof.
  intros [_ Hreg]. unfold SP. rewrite list_index_nonneg by (rewrite Hreg; lia).
  reflexivity.
Qed.

(** An operand byte is used as the register index as it is: bytes 0..7 name
    a register, bytes 8..255 are out of range. *)
Lemma reg_index_byte s b :
  wf s -> 0 <= b <= 255 ->
  list_index (reg s) (VInt b)
  = if b <? 8 then Ok (Z.to_nat b) else Raise IndexError.
Proof.
  intros [_ Hreg] Hb. destruct (Z.ltb_spec b 8).
  - apply list_index_nonneg. rewrite Hreg. lia.
  - apply list_index_outside. rewrite Hreg. lia.
Qed.

Lemma of_int_one :
  PyFloat.of_int 1 = Ok (S754_finite false 4503599627370496 (-52)).
Proof. vm_compute. reflexivity. Qed.

(** Adding or subtracting the literal 1 never raises. *)
Lemma py_sub_one_Ok v : exists w, py_sub v (VInt 1) = Ok w.
Proof.
  destruct v as [z|f]; [eexists; reflexivity|].
  unfold py_sub, arith. cbn [to_float]. rewrite of_int_one.
  eexists. reflexivity.
Qed.

(** [self.reg[SP] -= 1] on an integer stack pointer. *)
Lemma dec_sp s sp :
  wf s -> reg_get s SP = Ok (VInt sp) ->
  reg_aug py_sub s SP (Ok (VInt 1))
  = Ok (with_reg (<[7%nat := VInt (sp - 1)]> (reg s)) s).
Proof.
  intros Hwf Hsp. unfold reg_aug.
  rewrite Hsp, !bind_Ok, py_sub_int, bind_Ok.
  apply reg_set_Ok, list_index_SP, Hwf.
Qed.

(** [self.reg[SP] += 1] on an integer stack pointer. *)
Lemma inc_sp s sp :
  wf s -> reg_get s SP = Ok (VInt sp) ->
  reg_aug py_add s SP (Ok (VInt 1))
  = Ok (with_reg (<[7%nat := VInt (sp + 1)]> (reg s)) s).
Proof.
  intros Hwf Hsp. unfold reg_aug.
  rewrite Hsp, !bind_Ok, py_add_int, bind_Ok.
  apply reg_set_Ok, list_index_SP, Hwf.
Qed.

Lemma wf_with_reg s regs :
  wf s -> length regs = length (reg s) -> wf (with_reg regs s).
Proof. intros [Hram Hreg] H. split; cbn; congruence. Qed.

Lemma wf_with_ram s cells :
  wf s -> length cells = length (ram s) -> wf (with_ram cells s).
Proof. intros [Hram Hreg] H. split; cbn; congruence. Qed.

Lemma reg_get_SP_insert s v :
  wf s -> reg_get (with_reg (<[7%nat := v]> (reg s)) s) SP = Ok v.
Proof.
  intros Hwf. unfold reg_get. cbn [reg with_reg].
  apply getitem_insert_same, list_index_SP, Hwf.
Qed.

(** C2, counterexample: [LDI] with operand byte 8 does not load register
    0 (8 mod 8); it raises IndexError, and so does the run. *)
Lemma ldi_operand_byte_8_counterexample :
  ~ ldi_selects_low_3_bits (boot 0 [LDI; 8; 42; HLT])
  /\ ldi (boot 0 [LDI; 8; 42; HLT]) = Raise IndexError
  /\ run 5 (fun _ => 0) (boot 0 [LDI; 8; 42; HLT]) = Some (Raise IndexError).
Proof.
  split; [|split; reflexivity].
  intros H. destruct (H 8 (VInt 42)) as (s' & Hs' & _); try reflexivity; [lia|].
  discriminate Hs'.
Qed.

(** An operand byte below 8 is the index of a register. *)
Lemma reg_byte_small s b :
  wf s -> 0 <= b < 8 ->
  list_index (reg s) (VInt b) = Ok (Z.to_nat b)
  /\ exists x, reg s !! Z.to_nat b = Some x /\ reg_get s (VInt b) = Ok x.
Proof.
  intros Hwf Hb.
  assert (Hidx : list_index (reg s) (VInt b) = Ok (Z.to_nat b))
    by (apply list_index_nonneg; rewrite (proj2 Hwf); lia).
  split; [exact Hidx|]. exact (getitem_lookup _ _ _ Hidx).
Qed.

(** An operand byte of 8 or more is no index of the register file. *)
Lemma reg_byte_large s b :
  wf s -> 8 <= b ->
  reg_get s (VInt b) = Raise IndexError
  /\ forall v, reg_set s (VInt b) v = Raise IndexError.
Proof.
  intros Hwf Hb.
  assert (Hidx : list_index (reg s) (VInt b) = Raise IndexError)
    by (apply list_index_outside; rewrite (proj2 Hwf); lia).
  split; [|intros v]; unfold reg_get, reg_set, getitem, setitem;
    now rewrite Hidx.
Qed.

Section OperandByte.
Variables (s : cpu) (p b : Z).
Hypothesis Hwf : wf s.
Hypothesis Hpc : pc s = VInt p.

(** *** The byte at PC+1 names a register *)

Section FirstInRange.
Variable x : value.
Hypothesis Hb : 0 <= b < 8.
Hypothesis Hop : operand s 1 = Ok (VInt b).
Hypothesis Hx : reg s !! Z.to_nat b = Some x.

Let Hidx : list_index (reg s) (VInt b) = Ok (Z.to_nat b) :=
  proj1 (reg_byte_small s b Hwf Hb).

Lemma byte_reg_get : reg_get s (VInt b) = Ok x.
Proof.
  destruct (proj2 (reg_byte_small s b Hwf Hb)) as (y & Hy & Hget). congruence.
Qed.

Lemma prn_byte : prn s = Ok (with_pc (VInt (p + 2)) (print (EmitVal x) s)).
Proof.
  unfold prn. rewrite Hop, bind_Ok, byte_reg_get, bind_Ok.
  now apply pc_advance_int.
Qed.

Lemma pra_byte : pra s = (c ← py_chr x; Ok (print (EmitChr c) s)).
Proof. unfold pra. now rewrite Hop, bind_Ok, byte_reg_get, bind_Ok. Qed.

Lemma jump_byte : jump s = Ok (with_pc x s).
Proof. unfold jump. now rewrite Hop, bind_Ok, byte_reg_get, bind_Ok. Qed.

Lemma ldi_byte imm :
  operand s 2 = Ok imm ->
  ldi s = Ok (with_pc (VInt (p + 3))
                (with_reg (<[Z.to_nat b := imm]> (reg s)) s)).
Proof.
  intros Himm. unfold ldi.
  rewrite Himm, bind_Ok, Hop, bind_Ok, (reg_set_Ok _ _ _ _ Hidx), bind_Ok.
  now apply pc_advance_int.
Qed.

Lemma push_byte sp k v :
  reg_get s SP = Ok (VInt sp) ->
  list_index (ram s) (VInt (sp - 1)) = Ok k ->
  <[7%nat := VInt (sp - 1)]> (reg s) !! Z.to_nat b = Some v ->
  push s = Ok (with_pc (VInt (p + 2))
                 (with_ram (<[k := v]> (ram s))
                    (with_reg (<[7%nat := VInt (sp - 1)]> (reg s)) s))).
Proof.
  intros Hsp Hk Hv. unfold push.
  rewrite (dec_sp s sp Hwf Hsp), bind_Ok, (reg_get_SP_insert s _ Hwf), bind_Ok.
  change (operand (with_reg _ s) 1) with (operand s 1).
  rewrite Hop, bind_Ok.
  assert (Hget : reg_get (with_reg (<[7%nat := VInt (sp - 1)]> (reg s)) s)
                   (VInt b) = Ok v).
  { unfold reg_get, getitem. cbn [reg with_reg].
    rewrite (list_index_length _ (reg s)) by apply length_insert.
    now rewrite Hidx, bind_Ok, Hv. }
  rewrite Hget, bind_Ok.
  rewrite (ram_write_Ok _ _ _ k) by exact Hk. rewrite bind_Ok.
  now apply pc_advance_int.
Qed.

Lemma pop_byte spv v old w :
  reg_get s SP = Ok spv -> ram_read s spv = Ok v ->
  <[Z.to_nat b := v]> (reg s) !! 7%nat = Some old ->
  py_add old (VInt 1) = Ok w ->
  pop s = Ok (with_pc (VInt (p + 2))
                (with_reg (<[7%nat := w]> (<[Z.to_nat b := v]> (reg s))) s)).
Proof.
  intros Hsp Hv Hold Hw. unfold pop.
  rewrite Hsp, bind_Ok, Hv, bind_Ok, Hop, bind_Ok.
  rewrite (reg_set_Ok _ _ _ _ Hidx), bind_Ok.
  set (regs1 := <[Z.to_nat b := v]> (reg s)) in *.
  assert (Hwf1 : wf (with_reg regs1 s))
    by (apply wf_with_reg; [exact Hwf|apply length_insert]).
  assert (Hsp1 : reg_get (with_reg regs1 s) SP = Ok old).
  { unfold reg_get, getitem. rewrite (list_index_SP _ Hwf1), bind_Ok.
    cbn [reg with_reg]. now rewrite Hold. }
  unfold reg_aug. rewrite Hsp1, !bind_Ok, Hw, bind_Ok.
  rewrite (reg_set_Ok _ _ _ _ (list_index_SP _ Hwf1)), bind_Ok.
  cbn [reg with_reg].
  rewrite (pc_advance_int _ p 2) by exact Hpc. rewrite bind_Ok.
  set (s3 := with_pc _ _).
  assert (Hop3 : operand s3 (-1) = Ok (VInt b)).
  { rewrite <- Hop. unfold operand. cbn [pc with_pc s3].
    rewrite Hpc, !py_add_int. replace (p + 2 + -1) with (p + 1) by lia.
    reflexivity. }
  rewrite Hop3, bind_Ok.
  assert (Hwf3 : wf s3).
  { split; [exact (proj1 Hwf)|]. unfold s3, regs1. cbn [reg with_pc with_reg].
    rewrite !length_insert. exact (proj2 Hwf). }
  destruct (proj2 (reg_byte_small s3 b Hwf3 Hb)) as (y & _ & Hy).
  rewrite Hy, bind_Ok. reflexivity.
Qed.

Lemma call_byte sp k y :
  reg_get s SP = Ok (VInt sp) ->
  list_index (ram s) (VInt (sp - 1)) = Ok k ->
  list_index (ram s) (VInt (p + 1)) <> Ok k ->
  <[7%nat := VInt (sp - 1)]> (reg s) !! Z.to_nat b = Some y ->
  call s = Ok (with_pc y
                 (with_ram (<[k := VInt (p + 2)]> (ram s))
                    (with_reg (<[7%nat := VInt (sp - 1)]> (reg s)) s))).
Proof.
  intros Hsp Hk Hcell Hy. unfold call.
  rewrite (dec_sp s sp Hwf Hsp), bind_Ok.
  rewrite (reg_get_SP_insert s _ Hwf), bind_Ok.
  change (pc (with_reg _ s)) with (pc s). rewrite Hpc, py_add_int, bind_Ok.
  rewrite (ram_write_Ok _ _ _ k) by exact Hk. rewrite bind_Ok.
  set (regs1 := <[7%nat := VInt (sp - 1)]> (reg s)) in *.
  change (ram (with_reg regs1 s)) with (ram s).
  set (ram1 := <[k := VInt (p + 2)]> (ram s)).
  assert (Hop' : operand (with_ram ram1 (with_reg regs1 s)) 1 = Ok (VInt b)).
  { rewrite <- Hop. rewrite !(operand_int _ p) by exact Hpc.
    unfold ram_read. cbn [ram with_ram]. unfold ram1.
    now apply (getitem_insert_other _ (VInt (sp - 1))). }
  rewrite Hop', bind_Ok.
  assert (Hget : reg_get (with_ram ram1 (with_reg regs1 s)) (VInt b) = Ok y).
  { unfold reg_get, getitem. cbn [reg with_ram with_reg].
    rewrite (list_index_length regs1 (reg s)) by apply length_insert.
    now rewrite Hidx, bind_Ok, Hy. }
  now rewrite Hget, bind_Ok.
Qed.

(** Two register operands: [b] at PC+1 and [b2] at PC+2. *)
Section TwoInRange.
Variables (b2 : Z) (y : value).
Hypothesis Hb2 : 0 <= b2 < 8.
Hypothesis Hop2 : operand s 2 = Ok (VInt b2).
Hypothesis Hy : reg s !! Z.to_nat b2 = Some y.

Lemma byte2_reg_get : reg_get s (VInt b2) = Ok y.
Proof.
  destruct (proj2 (reg_byte_small s b2 Hwf Hb2)) as (z & Hz & Hget).
  congruence.
Qed.

Lemma alu_op_bytes op :
  reg_aug op s (VInt b) (reg_get s (VInt b2))
  = (v ← op x y; Ok (with_reg (<[Z.to_nat b := v]> (reg s)) s)).
Proof.
  unfold reg_aug. rewrite byte_reg_get, bind_Ok, byte2_reg_get, bind_Ok.
  destruct (op x y) as [v|e]; [|reflexivity].
  rewrite !bind_Ok. now apply reg_set_Ok.
Qed.

Lemma add_bytes :
  add s = (v ← py_add x y;
           Ok (with_pc (VInt (p + 3))
                 (with_reg (<[Z.to_nat b := v]> (reg s)) s))).
Proof.
  unfold add, alu_instr. rewrite Hop, bind_Ok, Hop2, bind_Ok.
  change (alu "ADD" (VInt b) (VInt b2) s)
    with (reg_aug py_add s (VInt b) (reg_get s (VInt b2))).
  rewrite alu_op_bytes. destruct (py_add x y) as [v|e]; [|reflexivity].
  rewrite !bind_Ok. now apply pc_advance_int.
Qed.

Lemma mul_bytes :
  mul s = (v ← py_mul x y;
           Ok (with_pc (VInt (p + 3))
                 (with_reg (<[Z.to_nat b := v]> (reg s)) s))).
Proof.
  unfold mul, alu_instr. rewrite Hop, bind_Ok, Hop2, bind_Ok.
  change (alu "MUL" (VInt b) (VInt b2) s)
    with (reg_aug py_mul s (VInt b) (reg_get s (VInt b2))).
  rewrite alu_op_bytes. destruct (py_mul x y) as [v|e]; [|reflexivity].
  rewrite !bind_Ok. now apply pc_advance_int.
Qed.

Lemma div_bytes :
  div s =
  if py_eq y (VInt 0) then
    Ok (with_pc (VInt (p + 3))
          (with_running false
             (print (EmitStr "Error: Cannot divide by 0!") s)))
  else
    v ← py_truediv x y;
    Ok (with_pc (VInt (p + 3)) (with_reg (<[Z.to_nat b := v]> (reg s)) s)).
Proof.
  unfold div, alu_instr. rewrite Hop, bind_Ok, Hop2, bind_Ok.
  rewrite alu_DIV, byte2_reg_get, bind_Ok.
  destruct (py_eq y (VInt 0)).
  - unfold hlt. rewrite bind_Ok. now apply pc_advance_int.
  - rewrite <- byte2_reg_get at 1. rewrite alu_op_bytes.
    destruct (py_truediv x y) as [v|e]; [|reflexivity].
    rewrite !bind_Ok. now apply pc_advance_int.
Qed.

Lemma comp_bytes :
  comp s = Ok (with_pc (VInt (p + 3))
                 (if py_eq x y then with_fl 1 s
                  else if py_lt x y then with_fl 4 s
                  else if py_gt x y then with_fl 2 s
                  else s)).
Proof.
  unfold comp.
  rewrite Hop, bind_Ok, byte_reg_get, bind_Ok, Hop2, bind_Ok, byte2_reg_get,
    bind_Ok.
  apply pc_advance_int.
  destruct (py_eq x y); [exact Hpc|].
  destruct (py_lt x y); [exact Hpc|].
  destruct (py_gt x y); exact Hpc.
Qed.

Lemma st_bytes : st s = (s1 ← ram_write s x y; pc_advance 3 s1).
Proof.
  unfold st.
  now rewrite Hop, bind_Ok, byte_reg_get, bind_Ok, Hop2, bind_Ok, byte2_reg_get,
    bind_Ok.
Qed.

End TwoInRange.
End FirstInRange.

(** *** The byte at PC+1 is 8 or more *)

Section FirstOutOfRange.
Hypothesis Hb : 8 <= b.
Hypothesis Hop : operand s 1 = Ok (VInt b).

Let Hget : reg_get s (VInt b) = Raise IndexError :=
  proj1 (reg_byte_large s b Hwf Hb).

Lemma prn_large : prn s = Raise IndexError.
Proof. unfold prn. now rewrite Hop, bind_Ok, Hget. Qed.

Lemma pra_large : pra s = Raise IndexError.
Proof. unfold pra. now rewrite Hop, bind_Ok, Hget. Qed.

Lemma jump_large : jump s = Raise IndexError.
Proof. unfold jump. now rewrite Hop, bind_Ok, Hget. Qed.

Lemma ldi_large imm : operand s 2 = Ok imm -> ldi s = Raise IndexError.
Proof.
  intros Himm. unfold ldi. rewrite Himm, bind_Ok, Hop, bind_Ok.
  now rewrite (proj2 (reg_byte_large s b Hwf Hb)).
Qed.

Lemma large_after_reg_update regs t :
  length regs = length (reg s) ->
  reg t = regs ->
  reg_get t (VInt b) = Raise IndexError
  /\ forall v, reg_set t (VInt b) v = Raise IndexError.
Proof.
  intros Hlen Hreg.
  assert (Hidx : list_index (reg t) (VInt b) = Raise IndexError).
  { apply list_index_outside. rewrite Hreg, Hlen, (proj2 Hwf). lia. }
  split; [|intros v]; unfold reg_get, reg_set, getitem, setitem;
    now rewrite Hidx.
Qed.

Lemma push_large : push s = Raise IndexError.
Proof.
  unfold push, reg_aug.
  destruct (getitem_lookup (reg s) SP 7 (list_index_SP s Hwf))
    as (old & _ & Hold).
  change (getitem (reg s) SP) with (reg_get s SP) in Hold.
  rewrite Hold, !bind_Ok.
  destruct (py_sub_one_Ok old) as [w Hw]. rewrite Hw, bind_Ok.
  rewrite (reg_set_Ok _ _ _ _ (list_index_SP s Hwf)), bind_Ok.
  rewrite (reg_get_SP_insert s _ Hwf), bind_Ok.
  change (operand (with_reg _ s) 1) with (operand s 1).
  rewrite Hop, bind_Ok.
  now rewrite (proj1 (large_after_reg_update (<[7%nat := w]> (reg s))
                        (with_reg (<[7%nat := w]> (reg s)) s)
                        (length_insert _ _ _) eq_refl)).
Qed.

Lemma pop_large spv v :
  reg_get s SP = Ok spv -> ram_read s spv = Ok v -> pop s = Raise IndexError.
Proof.
  intros Hsp Hv. unfold pop. rewrite Hsp, bind_Ok, Hv, bind_Ok, Hop, bind_Ok.
  now rewrite (proj2 (reg_byte_large s b Hwf Hb)).
Qed.

Lemma call_large sp k :
  reg_get s SP = Ok (VInt sp) ->
  list_index (ram s) (VInt (sp - 1)) = Ok k ->
  list_index (ram s) (VInt (p + 1)) <> Ok k ->
  call s = Raise IndexError.
Proof.
  intros Hsp Hk Hcell. unfold call.
  rewrite (dec_sp s sp Hwf Hsp), bind_Ok.
  rewrite (reg_get_SP_insert s _ Hwf), bind_Ok.
  change (pc (with_reg _ s)) with (pc s). rewrite Hpc, py_add_int, bind_Ok.
  rewrite (ram_write_Ok _ _ _ k) by exact Hk. rewrite bind_Ok.
  set (regs1 := <[7%nat := VInt (sp - 1)]> (reg s)).
  change (ram (with_reg regs1 s)) with (ram s).
  set (ram1 := <[k := VInt (p + 2)]> (ram s)).
  assert (Hop' : operand (with_ram ram1 (with_reg regs1 s)) 1 = Ok (VInt b)).
  { rewrite <- Hop. rewrite !(operand_int _ p) by exact Hpc.
    unfold ram_read. cbn [ram with_ram]. unfold ram1.
    now apply (getitem_insert_other _ (VInt (sp - 1))). }
  rewrite Hop', bind_Ok.
  now rewrite (proj1 (large_after_reg_update regs1
                        (with_ram ram1 (with_reg regs1 s))
                        (length_insert _ _ _) eq_refl)).
Qed.

Lemma alu_first_large op rhs :
  reg_aug op s (VInt b) rhs = Raise IndexError.
Proof. unfold reg_aug. now rewrite Hget. Qed.

Lemma add_first_large r2 : operand s 2 = Ok r2 -> add s = Raise IndexError.
Proof.
  intros Hop2. unfold add, alu_instr. rewrite Hop, bind_Ok, Hop2, bind_Ok.
  change (alu "ADD" (VInt b) r2 s)
    with (reg_aug py_add s (VInt b) (reg_get s r2)).
  now rewrite alu_first_large.
Qed.

Lemma mul_first_large r2 : operand s 2 = Ok r2 -> mul s = Raise IndexError.
Proof.
  intros Hop2. unfold mul, alu_instr. rewrite Hop, bind_Ok, Hop2, bind_Ok.
  change (alu "MUL" (VInt b) r2 s)
    with (reg_aug py_mul s (VInt b) (reg_get s r2)).
  now rewrite alu_first_large.
Qed.

Lemma div_first_large r2 d :
  operand s 2 = Ok r2 -> reg_get s r2 = Ok d ->
  div s =
  if py_eq d (VInt 0) then
    Ok (with_pc (VInt (p + 3))
          (with_running false
             (print (EmitStr "Error: Cannot divide by 0!") s)))
  else Raise IndexError.
Proof.
  intros Hop2 Hd. unfold div, alu_instr.
  rewrite Hop, bind_Ok, Hop2, bind_Ok, alu_DIV, Hd, bind_Ok.
  destruct (py_eq d (VInt 0)).
  - unfold hlt. rewrite bind_Ok. now apply pc_advance_int.
  - now rewrite alu_first_large.
Qed.

Lemma comp_first_large : comp s = Raise IndexError.
Proof. unfold comp. now rewrite Hop, bind_Ok, Hget. Qed.

Lemma st_first_large : st s = Raise IndexError.
Proof. unfold st. now rewrite Hop, bind_Ok, Hget. Qed.

End FirstOutOfRange.

(** *** The byte at PC+2 is 8 or more *)

Section SecondOutOfRange.
Hypothesis Hb : 8 <= b.
Hypothesis Hop2 : operand s 2 = Ok (VInt b).

Let Hget : reg_get s (VInt b) = Raise IndexError :=
  proj1 (reg_byte_large s b Hwf Hb).

Lemma div_second_large r1 : operand s 1 = Ok r1 -> div s = Raise IndexError.
Proof.
  intros Hop1. unfold div, alu_instr.
  now rewrite Hop1, bind_Ok, Hop2, bind_Ok, alu_DIV, Hget.
Qed.

Section FirstValid.
Variable a : Z.
Hypothesis Ha : 0 <= a < 8.
Hypothesis Hop1 : operand s 1 = Ok (VInt a).

Lemma alu_second_large op :
  reg_aug op s (VInt a) (reg_get s (VInt b)) = Raise IndexError.
Proof.
  destruct (proj2 (reg_byte_small s a Hwf Ha)) as (x & _ & Hx).
  unfold reg_aug. now rewrite Hx, bind_Ok, Hget.
Qed.

Lemma add_second_large : add s = Raise IndexError.
Proof.
  unfold add, alu_instr. rewrite Hop1, bind_Ok, Hop2, bind_Ok.
  change (alu "ADD" (VInt a) (VInt b) s)
    with (reg_aug py_add s (VInt a) (reg_get s (VInt b))).
  now rewrite alu_second_large.
Qed.

Lemma mul_second_large : mul s = Raise IndexError.
Proof.
  unfold mul, alu_instr. rewrite Hop1, bind_Ok, Hop2, bind_Ok.
  change (alu "MUL" (VInt a) (VInt b) s)
    with (reg_aug py_mul s (VInt a) (reg_get s (VInt b))).
  now rewrite alu_second_large.
Qed.

Lemma comp_second_large : comp s = Raise IndexError.
Proof.
  destruct (proj2 (reg_byte_small s a Hwf Ha)) as (x & _ & Hx).
  unfold comp. now rewrite Hop1, bind_Ok, Hx, bind_Ok, Hop2, bind_Ok, Hget.
Qed.

Lemma st_second_large : st s = Raise IndexError.
Proof.
  destruct (proj2 (reg_byte_small s a Hwf Ha)) as (x & _ & Hx).
  unfold st. now rewrite Hop1, bind_Ok, Hx, bind_Ok, Hop2, bind_Ok, Hget.
Qed.

End FirstValid.
End SecondOutOfRange.
End OperandByte.

(** A conditional jump that is not taken never looks at its operand. *)
Lemma jeq_jne_not_taken s p :
  pc s = VInt p ->
  (Z.land (fl s) 1 <> 1 -> jeq s = Ok (with_pc (VInt (p + 2)) s))
  /\ (Z.land (fl s) 1 <> 0 -> jne s = Ok (with_pc (VInt (p + 2)) s)).
Proof.
  intros Hpc. split; intros H; unfold jeq, jne;
    apply Z.eqb_neq in H; rewrite H; now apply pc_advance_int.
Qed.

(** C2, amended: for every instruction with a register operand, the
    operand byte [b] itself is the index with which the handler reads or
    writes the register file; nothing masks it.  For [b] in 0..7 (where
    [b] is its own low 3 bits) each of PRN, PRA, JMP, JEQ and JNE when
    taken, LDI, PUSH, POP, CALL, ADD, MUL, DIV, COMP and ST works on
    register [b].  For [b] in 8..255 the handler raises IndexError when it
    reaches the access, at either operand position; it completes only where
    it never uses that register: JEQ and JNE when not taken, and DIV with a
    zero divisor, which does not read its destination. *)
Theorem register_operand_is_not_masked (s : cpu) (p b : Z) :
  wf s -> pc s = VInt p -> 0 <= b <= 255 ->
  (* [b] is the byte at PC+1 *)
  (operand s 1 = Ok (VInt b) ->
     (b < 8 ->
        Z.land b 7 = b
        /\ exists x,
             reg s !! Z.to_nat b = Some x
             /\ prn s = Ok (with_pc (VInt (p + 2)) (print (EmitVal x) s))
             /\ pra s = (c ← py_chr x; Ok (print (EmitChr c) s))
             /\ jmp s = Ok (with_pc x s)
             /\ (Z.land (fl s) 1 = 1 -> jeq s = Ok (with_pc x s))
             /\ (Z.land (fl s) 1 = 0 -> jne s = Ok (with_pc x s))
             /\ (forall imm, operand s 2 = Ok imm ->
                   ldi s = Ok (with_pc (VInt (p + 3))
                                 (with_reg (<[Z.to_nat b := imm]> (reg s)) s)))
             /\ (forall sp k v,
                   reg_get s SP = Ok (VInt sp) ->
                   list_index (ram s) (VInt (sp - 1)) = Ok k ->
                   <[7%nat := VInt (sp - 1)]> (reg s) !! Z.to_nat b = Some v ->
                   push s = Ok (with_pc (VInt (p + 2))
                                  (with_ram (<[k := v]> (ram s))
                                     (with_reg (<[7%nat := VInt (sp - 1)]> (reg s))
                                        s))))
             /\ (forall spv v old w,
                   reg_get s SP = Ok spv -> ram_read s spv = Ok v ->
                   <[Z.to_nat b := v]> (reg s) !! 7%nat = Some old ->
                   py_add old (VInt 1) = Ok w ->
                   pop s = Ok (with_pc (VInt (p + 2))
                                 (with_reg (<[7%nat := w]>
                                              (<[Z.to_nat b := v]> (reg s))) s)))
             /\ (forall sp k y,
                   reg_get s SP = Ok (VInt sp) ->
                   list_index (ram s) (VInt (sp - 1)) = Ok k ->
                   list_index (ram s) (VInt (p + 1)) <> Ok k ->
                   <[7%nat := VInt (sp - 1)]> (reg s) !! Z.to_nat b = Some y ->
                   call s = Ok (with_pc y
                                  (with_ram (<[k := VInt (p + 2)]> (ram s))
                                     (with_reg (<[7%nat := VInt (sp - 1)]> (reg s))
                                        s))))
             /\ (forall b2 y,
                   0 <= b2 < 8 -> operand s 2 = Ok (VInt b2) ->
                   reg s !! Z.to_nat b2 = Some y ->
                   add s = (v ← py_add x y;
                            Ok (with_pc (VInt (p + 3))
                                  (with_reg (<[Z.to_nat b := v]> (reg s)) s)))
                   /\ mul s = (v ← py_mul x y;
                               Ok (with_pc (VInt (p + 3))
                                     (with_reg (<[Z.to_nat b := v]> (reg s)) s)))
                   /\ div s =
                      (if py_eq y (VInt 0) then
                         Ok (with_pc (VInt (p + 3))
                               (with_running false
                                  (print (EmitStr "Error: Cannot divide by 0!") s)))
                       else
                         v ← py_truediv x y;
                         Ok (with_pc (VInt (p + 3))
                               (with_reg (<[Z.to_nat b := v]> (reg s)) s)))
                   /\ comp s = Ok (with_pc (VInt (p + 3))
                                     (if py_eq x y then with_fl 1 s
                                      else if py_lt x y then with_fl 4 s
                                      else if py_gt x y then with_fl 2 s
                                      else s))
                   /\ st s = (s1 ← ram_write s x y; pc_advance 3 s1)))
     /\ (8 <= b ->
        prn s = Raise IndexError
        /\ pra s = Raise IndexError
        /\ jmp s = Raise IndexError
        /\ (Z.land (fl s) 1 = 1 -> jeq s = Raise IndexError)
        /\ (Z.land (fl s) 1 = 0 -> jne s = Raise IndexError)
        /\ (forall imm, operand s 2 = Ok imm -> ldi s = Raise IndexError)
        /\ push s = Raise IndexError
        /\ (forall spv v,
              reg_get s SP = Ok spv -> ram_read s spv = Ok v ->
              pop s = Raise IndexError)
        /\ (forall sp k,
              reg_get s SP = Ok (VInt sp) ->
              list_index (ram s) (VInt (sp - 1)) = Ok k ->
              list_index (ram s) (VInt (p + 1)) <> Ok k ->
              call s = Raise IndexError)
        /\ (forall r2, operand s 2 = Ok r2 ->
              add s = Raise IndexError /\ mul s = Raise IndexError)
        /\ comp s = Raise IndexError
        /\ st s = Raise IndexError
        /\ (forall r2 d,
              operand s 2 = Ok r2 -> reg_get s r2 = Ok d ->
              div s =
              if py_eq d (VInt 0) then
                Ok (with_pc (VInt (p + 3))
                      (with_running false
                         (print (EmitStr "Error: Cannot divide by 0!") s)))
              else Raise IndexError)))
  (* [b] is the byte at PC+2 *)
  /\ (operand s 2 = Ok (VInt b) -> 8 <= b ->
        (forall r1, operand s 1 = Ok r1 -> div s = Raise IndexError)
        /\ (forall a, 0 <= a < 8 -> operand s 1 = Ok (VInt a) ->
              add s = Raise IndexError /\ mul s = Raise IndexError
              /\ comp s = Raise IndexError /\ st s = Raise IndexError))
  (* a conditional jump that is not taken reads no register *)
  /\ (Z.land (fl s) 1 <> 1 -> jeq s = Ok (with_pc (VInt (p + 2)) s))
  /\ (Z.land (fl s) 1 <> 0 -> jne s = Ok (with_pc (VInt (p + 2)) s)).
Proof.
  intros Hwf Hpc Hb.
  split; [|split; [|exact (jeq_jne_not_taken s p Hpc)]].
  - intros Hop. split.
    + intros Hlt. assert (Hb' : 0 <= b < 8) by lia.
      split.
      { change 7 with (Z.ones 3). rewrite Z.land_ones by lia.
        apply Z.mod_small. cbn. lia. }
      destruct (proj2 (reg_byte_small s b Hwf Hb')) as (x & Hx & _).
      exists x. split; [exact Hx|].
      split; [exact (prn_byte s p b Hwf Hpc x Hb' Hop Hx)|].
      split; [exact (pra_byte s b Hwf x Hb' Hop Hx)|].
      split; [exact (jump_byte s b Hwf x Hb' Hop Hx)|].
      split.
      { intros Hfl. unfold jeq. rewrite Hfl. cbn [Z.eqb Pos.eqb].
        exact (jump_byte s b Hwf x Hb' Hop Hx). }
      split.
      { intros Hfl. unfold jne. rewrite Hfl. cbn [Z.eqb].
        exact (jump_byte s b Hwf x Hb' Hop Hx). }
      split; [intros imm; exact (ldi_byte s p b Hwf Hpc Hb' Hop imm)|].
      split; [intros sp k v; exact (push_byte s p b Hwf Hpc Hb' Hop sp k v)|].
      split; [intros spv v old w;
              exact (pop_byte s p b Hwf Hpc Hb' Hop spv v old w)|].
      split; [intros sp k y; exact (call_byte s p b Hwf Hpc Hb' Hop sp k y)|].
      intros b2 y Hb2 Hop2 Hy.
      split; [exact (add_bytes s p b Hwf Hpc x Hb' Hop Hx b2 y Hb2 Hop2 Hy)|].
      split; [exact (mul_bytes s p b Hwf Hpc x Hb' Hop Hx b2 y Hb2 Hop2 Hy)|].
      split; [exact (div_bytes s p b Hwf Hpc x Hb' Hop Hx b2 y Hb2 Hop2 Hy)|].
      split; [exact (comp_bytes s p b Hwf Hpc x Hb' Hop Hx b2 y Hb2 Hop2 Hy)|].
      exact (st_bytes s b Hwf x Hb' Hop Hx b2 y Hb2 Hop2 Hy).
    + intros Hge.
      split; [exact (prn_large s b Hwf Hge Hop)|].
      split; [exact (pra_large s b Hwf Hge Hop)|].
      split; [exact (jump_large s b Hwf Hge Hop)|].
      split.
      { intros Hfl. unfold jeq. rewrite Hfl. cbn [Z.eqb Pos.eqb].
        exact (jump_large s b Hwf Hge Hop). }
      split.
      { intros Hfl. unfold jne. rewrite Hfl. cbn [Z.eqb].
        exact (jump_large s b Hwf Hge Hop). }
      split; [intros imm; exact (ldi_large s b Hwf Hge Hop imm)|].
      split; [exact (push_large s b Hwf Hge Hop)|].
      split; [intros spv v; exact (pop_large s b Hwf Hge Hop spv v)|].
      split; [intros sp k; exact (call_large s p b Hwf Hpc Hge Hop sp k)|].
      split.
      { intros r2 Hr2. split;
          [exact (add_first_large s b Hwf Hge Hop r2 Hr2)
          |exact (mul_first_large s b Hwf Hge Hop r2 Hr2)]. }
      split; [exact (comp_first_large s b Hwf Hge Hop)|].
      split; [exact (st_first_large s b Hwf Hge Hop)|].
      intros r2 d. exact (div_first_large s p b Hwf Hpc Hge Hop r2 d).
  - intros Hop2 Hge. split.
    + intros r1. exact (div_second_large s b Hwf Hge Hop2 r1).
    + intros a Ha Hop1.
      split; [exact (add_second_large s b Hwf Hge Hop2 a Ha Hop1)|].
      split; [exact (mul_second_large s b Hwf Hge Hop2 a Ha Hop1)|].
      split; [exact (comp_second_large s b Hwf Hge Hop2 a Ha Hop1)|].
      exact (st_second_large s b Hwf Hge Hop2 a Ha Hop1).
Qed.

Lemma wf_boot_print8 : wf (boot 0 print8).
Proof. split; reflexivity. Qed.

Lemma register_operand_is_not_masked_witness :
  ldi (boot 0 print8)
  = Ok (with_pc (VInt (0 + 3))
          (with_reg (<[Z.to_nat 0 := VInt 8]> (reg (boot 0 print8)))
             (boot 0 print8))).
Proof.
  assert (H0 : (0 <= 0 <= 255)%Z) by lia.
  destruct (register_operand_is_not_masked (boot 0 print8) 0 0
              wf_boot_print8 eq_refl H0) as [H _].
  destruct (H eq_refl) as [Hsmall _].
  destruct (Hsmall ltac:(lia)) as (_ & x & _ & _ & _ & _ & _ & _ & Hldi & _).
  apply Hldi. reflexivity.
Defined.

(** ** The stack: PUSH and POP *)

(** What a successful PUSH did. *)
Lemma push_Ok_inv s s1 r :
  wf s -> operand s 1 = Ok r -> push s = Ok s1 ->
  exists p sp k v,
    pc s = VInt p
    /\ reg_get s SP = Ok (VInt sp)
    /\ list_index (ram s) (VInt (sp - 1)) = Ok k
    /\ reg_get (with_reg (<[7%nat := VInt (sp - 1)]> (reg s)) s) r = Ok v
    /\ s1 = with_pc (VInt (p + 2))
              (with_ram (<[k := v]> (ram s))
                 (with_reg (<[7%nat := VInt (sp - 1)]> (reg s)) s)).
Proof.
  intros Hwf Hop. destruct (operand_pc_int _ _ _ Hop) as [p Hpc].
  destruct (getitem_lookup (reg s) SP 7 (list_index_SP s Hwf))
    as (old & _ & Hold).
  change (getitem (reg s) SP) with (reg_get s SP) in Hold.
  unfold push, reg_aug. rewrite Hold, !bind_Ok.
  destruct (py_sub old (VInt 1)) as [new|] eqn:Hnew; [|discriminate].
  rewrite bind_Ok, (reg_set_Ok _ _ _ _ (list_index_SP s Hwf)), bind_Ok.
  rewrite (reg_get_SP_insert s _ Hwf), bind_Ok.
  change (operand (with_reg _ s) 1) with (operand s 1).
  rewrite Hop, bind_Ok.
  destruct (reg_get (with_reg _ s) r) as [v|] eqn:Hv; [|discriminate].
  rewrite bind_Ok. unfold ram_write, setitem. cbn [ram with_reg].
  destruct (list_index (ram s) new) as [k|] eqn:Hk; [|discriminate].
  rewrite !bind_Ok.
  destruct new as [z|f]; [|discriminate].
  destruct old as [sp|f].
  2:{ unfold py_sub, arith in Hnew. cbn [to_float] in Hnew.
      rewrite of_int_one, !bind_Ok in Hnew. discriminate. }
  rewrite py_sub_int in Hnew. injection Hnew as <-.
  rewrite (pc_advance_int _ p) by exact Hpc.
  intros [= <-]. exists p, sp, k, v. repeat split; assumption.
Qed.

(** C6: for every register operand [r], once PUSH r has succeeded (SP
    admits the push) and the next instruction executed is POP r, the POP
    succeeds and leaves register [r] with the value it had before the PUSH
    and SP with its value before the PUSH; indeed the whole register file
    is as it was. *)
Theorem push_pop_roundtrip (s s1 : cpu) (r : value) :
  wf s ->
  operand s 1 = Ok r -> push s = Ok s1 ->
  operand s1 1 = Ok r ->
  exists s2 x sp,
    pop s1 = Ok s2
    /\ reg_get s r = Ok x /\ reg_get s2 r = Ok x
    /\ reg_get s SP = Ok sp /\ reg_get s2 SP = Ok sp
    /\ reg s2 = reg s.
Proof.
  intros Hwf Hop Hpush Hop1.
  destruct (push_Ok_inv s s1 r Hwf Hop Hpush)
    as (p & sp & k & v & Hpc & Hsp & Hk & Hv & ->).
  set (regs1 := <[7%nat := VInt (sp - 1)]> (reg s)) in *.
  set (ram1 := <[k := v]> (ram s)) in *.
  set (t := with_ram ram1 (with_reg regs1 s)) in *.
  assert (Hlen1 : length regs1 = length (reg s)) by apply length_insert.
  assert (Hwf1 : wf (with_reg regs1 s)) by now apply wf_with_reg.
  assert (Hwft : wf t).
  { apply wf_with_ram; [exact Hwf1|]. apply length_insert. }
  (* the register index that [r] denotes *)
  destruct (getitem_Ok _ _ _ Hv) as (kr & Hkr & Hlook). cbn [reg with_reg] in Hkr, Hlook.
  assert (Hsp7 : reg s !! 7%nat = Some (VInt sp)).
  { destruct (getitem_Ok _ _ _ Hsp) as (k7 & Hk7 & Hl7).
    rewrite (list_index_SP s Hwf) in Hk7. now injection Hk7 as <-. }
  (* POP writes back into [r] the value that is already there *)
  assert (Hregs2 : <[kr := v]> regs1 = regs1) by now apply list_insert_id.
  assert (Hregs3 : <[7%nat := VInt (sp - 1 + 1)]> regs1 = reg s).
  { unfold regs1. rewrite list_insert_insert_eq.
    replace (sp - 1 + 1) with sp by lia. now apply list_insert_id. }
  assert (Hpop : pop (with_pc (VInt (p + 2)) t)
                 = Ok (with_pc (VInt (p + 2 + 2)) (with_ram ram1 s))).
  { unfold pop.
    change (reg_get (with_pc _ t) SP) with (reg_get (with_reg regs1 s) SP).
    unfold regs1 at 1. rewrite (reg_get_SP_insert s _ Hwf), bind_Ok.
    change (ram_read (with_pc _ t) (VInt (sp - 1)))
      with (getitem ram1 (VInt (sp - 1))).
    unfold ram1 at 1. rewrite (getitem_insert_same _ _ _ _ Hk), bind_Ok.
    rewrite Hop1, bind_Ok.
    rewrite (reg_set_Ok _ _ _ kr) by exact Hkr. rewrite bind_Ok.
    change (reg (with_pc (VInt (p + 2)) t)) with regs1. rewrite Hregs2.
    assert (Hsp1 : reg_get (with_reg regs1 (with_pc (VInt (p + 2)) t)) SP
                   = Ok (VInt (sp - 1))).
    { unfold reg_get. cbn [reg with_reg]. unfold regs1.
      apply getitem_insert_same, list_index_SP, Hwf. }
    rewrite (inc_sp _ (sp - 1)); [|split; [apply Hwft|exact (proj2 Hwf1)]|exact Hsp1].
    rewrite bind_Ok. cbn [reg with_reg]. rewrite Hregs3.
    rewrite (pc_advance_int _ (p + 2)) by reflexivity. rewrite bind_Ok.
    (* the value returned by [pop]: the operand cell is read once more *)
    assert (Hop3 : operand (with_pc (VInt (p + 2 + 2))
                     (with_reg (reg s)
                        (with_reg regs1 (with_pc (VInt (p + 2)) t)))) (-1)
                   = Ok r).
    { rewrite <- Hop1. unfold operand. cbn [pc with_pc].
      rewrite !py_add_int. replace (p + 2 + 2 + -1) with (p + 2 + 1) by lia.
      reflexivity. }
    rewrite Hop3, bind_Ok.
    assert (Hr3 : exists y, reg_get (with_pc (VInt (p + 2 + 2))
                     (with_reg (reg s)
                        (with_reg regs1 (with_pc (VInt (p + 2)) t)))) r = Ok y).
    { unfold reg_get. cbn [reg with_reg with_pc].
      rewrite (list_index_length regs1 (reg s)) in Hkr by exact Hlen1.
      destruct (getitem_lookup _ _ _ Hkr) as (y & _ & Hy). eauto. }
    destruct Hr3 as [y Hy]. rewrite Hy, bind_Ok.
    destruct s; reflexivity. }
  rewrite (list_index_length regs1 (reg s)) in Hkr by exact Hlen1.
  destruct (getitem_lookup _ _ _ Hkr) as (x & _ & Hx).
  exists (with_pc (VInt (p + 2 + 2)) (with_ram ram1 s)), x, (VInt sp).
  repeat split; assumption.
Qed.

Lemma push_pop_roundtrip_witness :
  exists s2 x sp,
    pop pushed_state = Ok s2
    /\ reg_get push_state (VInt 1) = Ok x /\ reg_get s2 (VInt 1) = Ok x
    /\ reg_get push_state SP = Ok sp /\ reg_get s2 SP = Ok sp
    /\ reg s2 = reg push_state.
Proof.
  apply (push_pop_roundtrip push_state pushed_state (VInt 1)).
  - split; reflexivity.
  - reflexivity.
  - reflexivity.
  - reflexivity.
Defined.

(** ** CALL and RET *)

(** C7, counterexample: CALL decrements SP and pushes before it reads its
    operand register.  With operand R7, which holds 244, PC becomes 243;
    with the stack slot on the operand byte, the register read is no longer
    the one the instruction named (R0 = 9) and PC becomes 0. *)
Lemma call_operand_counterexample :
  ~ call_jumps_to_operand_register call_sp_state
  /\ reg_get call_sp_state (VInt 7) = Ok (VInt 244)
  /\ pc <$> (match call call_sp_state with Ok s1 => Some s1 | Raise _ => None end)
     = Some (VInt 243)
  /\ ~ call_jumps_to_operand_register call_overlap_state
  /\ pc <$> (match call call_overlap_state with Ok s1 => Some s1 | Raise _ => None end)
     = Some (VInt 0).
Proof.
  split; [|split; [reflexivity|split; [reflexivity|split; [|reflexivity]]]].
  - intros H. destruct (H (VInt 7) (VInt 244)) as (s1 & Hs1 & Hpc);
      try reflexivity.
    injection Hs1 as <-. discriminate Hpc.
  - intros H. destruct (H (VInt 0) (VInt 9)) as (s1 & Hs1 & Hpc);
      try reflexivity.
    injection Hs1 as <-. discriminate Hpc.
Qed.

(** RET on a balanced stack: SP and the cell it points at are as CALL left
    them. *)
Lemma ret_returns t sp target :
  wf t -> reg_get t SP = Ok (VInt sp) -> ram_read t (VInt sp) = Ok target ->
  exists t',
    ret t = Ok t'
    /\ pc t' = target
    /\ reg_get t' SP = Ok (VInt (sp + 1))
    /\ ram_read t' (VInt sp) = Ok (VInt 0).
Proof.
  intros Hwf Hsp Hcell.
  destruct (getitem_Ok _ _ _ Hcell) as (k & Hk & _).
  unfold ret. rewrite Hsp, bind_Ok, Hcell, bind_Ok.
  change (reg_get (with_pc target t) SP) with (reg_get t SP).
  rewrite Hsp, bind_Ok.
  rewrite (ram_write_Ok _ _ _ k) by exact Hk. rewrite bind_Ok.
  set (t1 := with_ram _ _).
  assert (Hwf1 : wf t1).
  { apply wf_with_ram; [exact Hwf|]. apply length_insert. }
  rewrite (inc_sp t1 sp Hwf1) by exact Hsp.
  eexists. split; [reflexivity|]. split; [reflexivity|]. split.
  - apply (reg_get_SP_insert t1 _ Hwf1).
  - unfold ram_read. cbn [ram with_reg with_ram with_pc t1].
    now apply getitem_insert_same.
Qed.

(** C7, amended: for a CALL at address [p] whose operand register [r] is
    not R7 and holds [A], with the stack slot [sp - 1] a cell other than
    the operand byte, CALL pushes [p + 2], decrements SP and sets PC to
    [A]; a later RET that finds SP and that stack cell as CALL left them
    sets PC to [p + 2], restores SP and clears the cell to 0. *)
Theorem call_then_ret (s : cpu) (p sp : Z) (k : nat) (r A : value) :
  wf s -> pc s = VInt p ->
  reg_get s SP = Ok (VInt sp) ->
  list_index (ram s) (VInt (sp - 1)) = Ok k ->
  list_index (ram s) (VInt (p + 1)) <> Ok k ->
  operand s 1 = Ok r ->
  list_index (reg s) r <> Ok 7%nat ->
  reg_get s r = Ok A ->
  exists s1,
    call s = Ok s1
    /\ pc s1 = A
    /\ reg_get s1 SP = Ok (VInt (sp - 1))
    /\ ram_read s1 (VInt (sp - 1)) = Ok (VInt (p + 2))
    /\ forall t,
         wf t -> reg_get t SP = Ok (VInt (sp - 1)) ->
         ram_read t (VInt (sp - 1)) = Ok (VInt (p + 2)) ->
         exists t',
           ret t = Ok t'
           /\ pc t' = VInt (p + 2)
           /\ reg_get t' SP = Ok (VInt sp)
           /\ ram_read t' (VInt (sp - 1)) = Ok (VInt 0).
Proof.
  intros Hwf Hpc Hsp Hk Hcell Hop Hr HA.
  set (regs1 := <[7%nat := VInt (sp - 1)]> (reg s)).
  set (ram1 := <[k := VInt (p + 2)]> (ram s)).
  assert (Hcall : call s = Ok (with_pc A (with_ram ram1 (with_reg regs1 s)))).
  { unfold call. rewrite (dec_sp s sp Hwf Hsp), bind_Ok.
    rewrite (reg_get_SP_insert s _ Hwf), bind_Ok.
    change (pc (with_reg _ s)) with (pc s). rewrite Hpc, py_add_int, bind_Ok.
    rewrite (ram_write_Ok _ _ _ k) by exact Hk. rewrite bind_Ok.
    fold regs1. change (ram (with_reg regs1 s)) with (ram s). fold ram1.
    assert (Hop' : operand (with_ram ram1 (with_reg regs1 s)) 1 = Ok r).
    { rewrite <- Hop. rewrite !(operand_int _ p) by exact Hpc.
      unfold ram_read. cbn [ram with_ram]. unfold ram1.
      now apply (getitem_insert_other _ (VInt (sp - 1))). }
    rewrite Hop', bind_Ok.
    assert (HA' : reg_get (with_ram ram1 (with_reg regs1 s)) r = Ok A).
    { rewrite <- HA. unfold reg_get. cbn [reg with_ram with_reg].
      unfold regs1.
      apply (getitem_insert_other _ SP); [apply list_index_SP, Hwf|exact Hr]. }
    now rewrite HA', bind_Ok. }
  eexists. split; [exact Hcall|]. split; [reflexivity|]. split; [|split].
  - unfold reg_get. cbn [reg with_pc with_ram with_reg]. unfold regs1.
    apply getitem_insert_same, list_index_SP, Hwf.
  - unfold ram_read. cbn [ram with_pc with_ram]. unfold ram1.
    now apply getitem_insert_same.
  - intros t Hwft Hspt Hcellt.
    destruct (ret_returns t (sp - 1) (VInt (p + 2)) Hwft Hspt Hcellt)
      as (t' & Hret & Hpc' & Hsp' & Hz).
    exists t'. replace (sp - 1 + 1) with sp in Hsp' by lia. auto.
Qed.

Lemma call_then_ret_witness :
  exists s1,
    call call_state = Ok s1
    /\ pc s1 = VInt 6
    /\ reg_get s1 SP = Ok (VInt (244 - 1))
    /\ ram_read s1 (VInt (244 - 1)) = Ok (VInt (3 + 2))
    /\ forall t,
         wf t -> reg_get t SP = Ok (VInt (244 - 1)) ->
         ram_read t (VInt (244 - 1)) = Ok (VInt (3 + 2)) ->
         exists t',
           ret t = Ok t'
           /\ pc t' = VInt (3 + 2)
           /\ reg_get t' SP = Ok (VInt 244)
           /\ ram_read t' (VInt (244 - 1)) = Ok (VInt 0).
Proof.
  apply (call_then_ret call_state 3 244 243%nat (VInt 1) (VInt 6)).
  - split; reflexivity.
  - reflexivity.
  - reflexivity.
  - reflexivity.
  - discriminate.
  - reflexivity.
  - discriminate.
  - reflexivity.
Defined.

(** The whole program runs CALL, then RET, then the HLT after the CALL. *)
Lemma call_ret_program_halts_after_call :
  (fun o => match o with
            | Some (Ok s) => Some (pc s, reg_get s SP)
            | _ => None
            end)
    (run 4 (fun _ => 0) (boot 0 [LDI; 1; 6; CALL; 1; HLT; RET]))
  = Some (VInt 5, Ok (VInt 244)).
Proof. reflexivity. Qed.

(** ** The interrupt sequence *)

Lemma list_index_cell s a :
  wf s -> -256 <= a < 256 -> list_index (ram s) (VInt a) = Ok (cell a).
Proof.
  intros [Hram _] Ha. rewrite list_index_mod by (rewrite Hram; lia).
  now rewrite Hram.
Qed.

Lemma cell_bound a : (cell a < 256)%nat.
Proof. unfold cell. pose proof (Z.mod_pos_bound a 256). lia. Qed.

Lemma cell_apart a d : 0 < d < 256 -> cell (a - d) <> cell a.
Proof.
  unfold cell. intros Hd Heq.
  apply Z2Nat.inj in Heq;
    [|apply Z.mod_pos_bound; lia|apply Z.mod_pos_bound; lia].
  revert Heq. Z.div_mod_to_equations. lia.
Qed.

Lemma stack_store_length vals : forall cells sp,
  length (stack_store cells sp vals) = length cells.
Proof.
  induction vals as [|v vals IH]; intros cells sp; cbn; [reflexivity|].
  now rewrite IH, length_insert.
Qed.

(** Cells that are not among the pushed ones keep their content. *)
Lemma stack_store_other vals : forall cells sp (j : nat),
  (forall i, 0 <= i < Z.of_nat (length vals) -> cell (sp - 1 - i) <> j) ->
  stack_store cells sp vals !! j = cells !! j.
Proof.
  induction vals as [|v vals IH]; intros cells sp j Hj; cbn; [reflexivity|].
  rewrite IH.
  - apply list_lookup_insert_ne.
    specialize (Hj 0). rewrite Z.sub_0_r in Hj. apply Hj.
    cbn [length]. lia.
  - intros i Hi. replace (sp - 1 - 1 - i) with (sp - 1 - (i + 1)) by lia.
    apply Hj. cbn [length]. lia.
Qed.

(** The [i]-th pushed word sits [i + 1] cells below the old stack pointer. *)
Lemma stack_store_pushed vals : forall cells sp (i : nat) v,
  length cells = 256%nat -> (length vals <= 256)%nat ->
  vals !! i = Some v ->
  stack_store cells sp vals !! cell (sp - 1 - Z.of_nat i) = Some v.
Proof.
  induction vals as [|w vals IH]; intros cells sp i v Hlen Hn Hi;
    [discriminate|].
  cbn [length] in Hn. destruct i as [|i]; cbn [stack_store]; cbn in Hi.
  - injection Hi as ->. change (Z.of_nat 0) with 0. rewrite Z.sub_0_r.
    rewrite stack_store_other.
    + apply list_lookup_insert_eq. rewrite Hlen. apply cell_bound.
    + intros i Hi. replace (sp - 1 - 1 - i) with (sp - 1 - (i + 1)) by lia.
      apply cell_apart. lia.
  - replace (sp - 1 - Z.of_nat (S i))
      with (sp - 1 - 1 - Z.of_nat i) by lia.
    apply IH; [now rewrite length_insert|lia|exact Hi].
Qed.

(** [push_each] on an integer stack pointer with room for the values. *)
Lemma push_each_spec vals : forall s sp,
  wf s -> reg_get s SP = Ok (VInt sp) ->
  -256 <= sp - Z.of_nat (length vals) -> sp <= 256 ->
  push_each vals s
  = Ok (with_ram (stack_store (ram s) sp vals)
          (with_reg (<[7%nat := VInt (sp - Z.of_nat (length vals))]> (reg s)) s)).
Proof.
  induction vals as [|v vals IH]; intros s sp Hwf Hsp Hlo Hhi.
  - cbn. rewrite Z.sub_0_r.
    rewrite list_insert_id.
    + now destruct s.
    + destruct (getitem_Ok _ _ _ Hsp) as (k7 & Hk7 & Hl7).
      rewrite (list_index_SP s Hwf) in Hk7. now injection Hk7 as <-.
  - cbn [push_each length] in *.
    rewrite (dec_sp s sp Hwf Hsp), bind_Ok.
    rewrite (reg_get_SP_insert s _ Hwf), bind_Ok.
    set (s1 := with_reg _ s).
    assert (Hwf1 : wf s1) by (apply wf_with_reg; [exact Hwf|apply length_insert]).
    rewrite (ram_write_Ok _ _ _ (cell (sp - 1)))
      by (apply list_index_cell; [exact Hwf1|lia]).
    rewrite bind_Ok.
    set (s2 := with_ram _ s1).
    assert (Hwf2 : wf s2) by (apply wf_with_ram; [exact Hwf1|apply length_insert]).
    rewrite (IH s2 (sp - 1) Hwf2); [|apply (reg_get_SP_insert s _ Hwf)|lia|lia].
    cbn [ram reg with_ram with_reg s1 s2 stack_store].
    rewrite list_insert_insert_eq.
    replace (sp - 1 - Z.of_nat (length vals))
      with (sp - Z.of_nat (S (length vals))) by lia.
    reflexivity.
Qed.

Lemma land_1_of_testbit im : Z.testbit im 0 = true -> Z.land im 1 = 1.
Proof.
  intros H. change 1 with (Z.ones 1) at 1. rewrite Z.land_ones by lia.
  rewrite Z.bit0_odd in H. change (2 ^ 1) with 2.
  rewrite Zmod_odd. now rewrite H.
Qed.

(** Taking the timer interrupt.  With interrupts enabled, bit 0 of R5 set
    and the [seconds] field of the elapsed time at least 1, the check pushes
    PC, FL, R0, ..., R5 in that order (SP going down by 8), clears R6,
    latches [interrupts_disabled], records [now], and loads PC from cell
    0xF8; the step then executes the instruction found there. *)
Lemma interrupt_entry s now r0 r1 r2 r3 r4 im r6 sp :
  length (ram s) = 256%nat ->
  reg s = [r0; r1; r2; r3; r4; VInt im; r6; VInt sp] ->
  interrupts_disabled s = false ->
  Z.testbit im 0 = true ->
  1 <= seconds (datetime_sub now (last_time s)) ->
  -248 <= sp <= 256 ->
  let s' := interrupted now s sp
              [pc s; VInt (fl s); r0; r1; r2; r3; r4; VInt im]
              [r0; r1; r2; r3; r4; VInt im; VInt 0; VInt (sp - 8)] in
  check_interrupts now s = Ok s'
  /\ step now s = execute s'
  /\ ram_read s' (VInt 0xF8) = Ok (pc s').
Proof.
  intros Hram Hreg Hen Hbit Hsec Hsp s'.
  assert (Hwf : wf s) by (split; [exact Hram|now rewrite Hreg]).
  assert (Hcheck : check_interrupts now s = Ok s').
  { unfold check_interrupts. rewrite Hen. cbn [negb].
    assert (HIM : reg_get s IM = Ok (VInt im))
      by (unfold reg_get; rewrite Hreg; reflexivity).
    rewrite HIM, bind_Ok. cbn [py_and].
    rewrite bind_Ok, (land_1_of_testbit im Hbit).
    cbn [Z.eqb negb]. apply Z.leb_le in Hsec. rewrite Hsec.
    assert (HIS : reg_set s IS (VInt 1)
                  = Ok (with_reg [r0; r1; r2; r3; r4; VInt im; VInt 1; VInt sp] s))
      by (unfold reg_set; rewrite Hreg; reflexivity).
    rewrite HIS, bind_Ok.
    set (s1 := with_reg _ s).
    assert (reg_get s1 IM = Ok (VInt im)) as -> by reflexivity.
    rewrite bind_Ok.
    assert (reg_get s1 IS = Ok (VInt 1)) as -> by reflexivity.
    rewrite bind_Ok. cbn [py_and].
    rewrite bind_Ok, (land_1_of_testbit im Hbit).
    change (scan_bits _ 1 now s1) with (enter_interrupt now s1).
    unfold enter_interrupt.
    assert (HIS0 : reg_set (with_interrupts_disabled true s1) IS (VInt 0)
                   = Ok (with_reg [r0; r1; r2; r3; r4; VInt im; VInt 0; VInt sp]
                           (with_interrupts_disabled true s1)))
      by reflexivity.
    rewrite HIS0, bind_Ok.
    set (t := with_reg _ _).
    assert (Hwft : wf t) by (split; [exact Hram|reflexivity]).
    assert (Hspt : reg_get t SP = Ok (VInt sp)) by reflexivity.
    change (take 6 (reg ?u)) with (take 6 (reg u)).
    pose proof (push_each_spec [pc s; VInt (fl s)] t sp Hwft Hspt) as H2.
    cbn [push_each length] in H2.
    specialize (H2 ltac:(lia) ltac:(lia)).
    destruct (reg_aug py_sub t SP (Ok (VInt 1))) as [t1|] eqn:E1;
      [|discriminate H2].
    rewrite bind_Ok in H2 |- *.
    destruct (reg_get t1 SP) as [sp1|] eqn:E2; [|discriminate H2].
    rewrite bind_Ok in H2 |- *.
    assert (Hpc1 : pc t1 = pc s).
    { rewrite (dec_sp t sp Hwft Hspt) in E1. now injection E1 as <-. }
    rewrite Hpc1.
    destruct (ram_write t1 sp1 (pc s)) as [t2|] eqn:E3; [|discriminate H2].
    rewrite bind_Ok in H2 |- *.
    destruct (reg_aug py_sub t2 SP (Ok (VInt 1))) as [t3|] eqn:E4;
      [|discriminate H2].
    rewrite bind_Ok in H2 |- *.
    destruct (reg_get t3 SP) as [sp3|] eqn:E5; [|discriminate H2].
    rewrite bind_Ok in H2 |- *.
    assert (Hfl3 : fl t3 = fl s).
    { assert (Hfl1 : fl t1 = fl s).
      { rewrite (dec_sp t sp Hwft Hspt) in E1. now injection E1 as <-. }
      assert (Hfl2 : fl t2 = fl s).
      { unfold ram_write in E3.
        destruct (setitem (ram t1) sp1 (pc s)); [|discriminate E3].
        rewrite bind_Ok in E3. injection E3 as <-. exact Hfl1. }
      unfold reg_aug, reg_set in E4.
      destruct (reg_get t2 SP); [|discriminate E4]. rewrite !bind_Ok in E4.
      destruct (py_sub _ _); [|discriminate E4]. rewrite bind_Ok in E4.
      destruct (setitem _ _ _); [|discriminate E4]. rewrite bind_Ok in E4.
      injection E4 as <-. exact Hfl2. }
    rewrite Hfl3.
    destruct (ram_write t3 sp3 (VInt (fl s))) as [t4|] eqn:E6;
      [|discriminate H2].
    rewrite bind_Ok in H2 |- *. injection H2 as ->.
    cbn [stack_store ram reg with_reg with_ram length].
    replace (sp - Z.of_nat 2) with (sp - 1 - 1) by lia.
    set (t4 := with_ram _ _).
    assert (Hwf4 : wf t4).
    { split; [|reflexivity]. unfold t4. cbn [ram with_ram].
      now rewrite !length_insert. }
    rewrite (push_each_spec _ t4 (sp - 1 - 1) Hwf4);
      [|reflexivity|cbn; lia|lia].
    rewrite bind_Ok. unfold ram_read.
    set (t5 := with_ram _ _).
    assert (Hlen5 : length (ram t5) = 256%nat).
    { unfold t5. cbn [ram with_ram]. rewrite stack_store_length.
      unfold t4. cbn [ram with_ram]. now rewrite !length_insert. }
    destruct (getitem_lookup (ram t5) (VInt 248) 248) as (vec & Hvec & Hget).
    { apply list_index_nonneg. rewrite Hlen5. lia. }
    rewrite Hget, bind_Ok.
    unfold s', interrupted. cbn [stack_store].
    change (ram t5) with
      (stack_store (ram s) sp [pc s; VInt (fl s); r0; r1; r2; r3; r4; VInt im])
      in Hvec.
    cbn [stack_store] in Hvec. rewrite Hvec. cbn [default].
    unfold t5.
    match goal with
    | |- context [VInt (sp - 1 - 1 - ?n)] =>
        replace (sp - 1 - 1 - n) with (sp - 8) by (cbn; lia)
    end.
    reflexivity. }
  split; [exact Hcheck|]. split.
  - unfold step. now rewrite Hcheck.
  - unfold ram_read, s', interrupted. cbn [ram pc].
    set (cells := stack_store _ _ _).
    destruct (getitem_lookup cells (VInt 248) 248) as (vec & Hvec & Hget).
    { apply list_index_nonneg. unfold cells.
      rewrite stack_store_length, Hram. lia. }
    now rewrite Hget, Hvec.
Qed.

(** The saved words, in push order, lie at [sp - 1], [sp - 2], ... *)
Lemma interrupted_stack now s sp saved regs (i : nat) v :
  length (ram s) = 256%nat -> (length saved <= 256)%nat ->
  -256 <= sp - Z.of_nat (length saved) -> sp <= 256 ->
  saved !! i = Some v ->
  ram_read (interrupted now s sp saved regs) (VInt (sp - 1 - Z.of_nat i))
  = Ok v.
Proof.
  intros Hram Hn Hlo Hhi Hi.
  pose proof (lookup_lt_Some _ _ _ Hi) as Hlt.
  unfold ram_read, interrupted, getitem. cbn [ram].
  rewrite list_index_mod by (rewrite stack_store_length, Hram; lia).
  rewrite stack_store_length, Hram, bind_Ok.
  change (Z.to_nat ((sp - 1 - Z.of_nat i) mod Z.of_nat 256))
    with (cell (sp - 1 - Z.of_nat i)).
  rewrite (stack_store_pushed saved (ram s) sp i v); [reflexivity|exact Hram|lia|exact Hi].
Qed.

(** Every other cell is as before: exactly the saved words are written. *)
Lemma interrupted_other_cells now s sp saved regs (j : nat) :
  (forall i, 0 <= i < Z.of_nat (length saved) -> cell (sp - 1 - i) <> j) ->
  ram (interrupted now s sp saved regs) !! j = ram s !! j.
Proof. intros Hj. unfold interrupted. cbn [ram]. now apply stack_store_other. Qed.

(** When the [seconds] field of the elapsed time is 0 the check does
    nothing, however long the elapsed time is. *)
Lemma timer_not_due s now im :
  interrupts_disabled s = false ->
  reg_get s IM = Ok (VInt im) ->
  seconds (datetime_sub now (last_time s)) < 1 ->
  check_interrupts now s = Ok s.
Proof.
  intros Hen HIM Hsec. unfold check_interrupts.
  rewrite Hen, HIM. cbn [negb]. rewrite bind_Ok. cbn [py_and].
  rewrite bind_Ok. apply Z.leb_gt in Hsec. rewrite Hsec.
  now destruct (negb _).
Qed.

(** C5, the failing input: interrupts are enabled, bit 0 of R5 is set and
    exactly one day (86400 seconds, so at least 1 second) has elapsed since
    [last_time]; the [seconds] field of that [timedelta] is 0, so the step
    takes no interrupt: nothing is pushed, SP stays at 0xF4, the latch
    stays open and PC just moves past the NOP.  After 1 second, or one
    second more than a day, the same state does take the interrupt. *)
Theorem timer_misses_whole_days :
  interrupts_disabled armed_state = false
  /\ reg_get armed_state IM = Ok (VInt 1)
  /\ one_second <= one_day - last_time armed_state
  /\ datetime_sub one_day (last_time armed_state) = mkTimedelta 1 0 0
  /\ check_interrupts one_day armed_state = Ok armed_state
  /\ step one_day armed_state = Ok (with_pc (VInt 4) armed_state)
  /\ check_interrupts one_second armed_state
     = Ok (interrupted one_second armed_state 244
             [VInt 3; VInt 0; VInt 0; VInt 0; VInt 0; VInt 0; VInt 0; VInt 1]
             [VInt 0; VInt 0; VInt 0; VInt 0; VInt 0; VInt 1; VInt 0; VInt 236])
  /\ check_interrupts (one_day + one_second) armed_state
     = Ok (interrupted (one_day + one_second) armed_state 244
             [VInt 3; VInt 0; VInt 0; VInt 0; VInt 0; VInt 0; VInt 0; VInt 1]
             [VInt 0; VInt 0; VInt 0; VInt 0; VInt 0; VInt 1; VInt 0; VInt 236]).
Proof.
  split; [reflexivity|]. split; [reflexivity|].
  split; [vm_compute; discriminate|].
  repeat split; vm_compute; reflexivity.
Qed.

(** The interrupt as the loop takes it from [armed_state] one second after
    construction: PC = 0x20, the eight words on the stack. *)
Lemma interrupt_entry_example :
  let s' := interrupted one_second armed_state 244
              [VInt 3; VInt 0; VInt 0; VInt 0; VInt 0; VInt 0; VInt 0; VInt 1]
              [VInt 0; VInt 0; VInt 0; VInt 0; VInt 0; VInt 1; VInt 0; VInt 236] in
  check_interrupts one_second armed_state = Ok s'
  /\ step one_second armed_state = execute s'
  /\ ram_read s' (VInt 0xF8) = Ok (pc s').
Proof.
  apply (interrupt_entry armed_state one_second
           (VInt 0) (VInt 0) (VInt 0) (VInt 0) (VInt 0) 1 (VInt 0) 244);
    try reflexivity; try (vm_compute; discriminate).
  split; vm_compute; discriminate.
Defined.

(** ** The built-in program *)

(** [load]'s default program prints 8 and halts with PC on the HLT. *)
Lemma print8_runs :
  run 3 (fun _ => 0) (boot 0 print8)
  = Some (Ok (with_running false
                (with_pc (VInt 5)
                   (print (EmitVal (VInt 8))
                      (with_reg (<[0%nat := VInt 8]> (reg (new_cpu 0)))
                         (boot 0 print8)))))).
Proof. reflexivity. Qed.

(** ** The lists are never resized *)






(** Splits the first bind of a hypothesis [m ≫= k = Ok _] on the result
    of [m]. *)
Ltac bind_inv H :=
  match type of H with
  | (?m ≫= _) = Ok _ =>
      let E := fresh "E" in
      destruct m eqn:E; [rewrite bind_Ok in H|discriminate H]
  end.










(** * Further properties of the emulator *)

(** ** What an access can change *)

Lemma ram_write_shape s s' mar mdr :
  ram_write s mar mdr = Ok s' -> exists cells, s' = with_ram cells s.
Proof.
  unfold ram_write. destruct (setitem _ _ _) as [cells|]; [|discriminate].
  rewrite bind_Ok. intros [= <-]. eauto.
Qed.

Lemma reg_set_shape s s' i v :
  reg_set s i v = Ok s' -> exists regs, s' = with_reg regs s.
Proof.
  unfold reg_set. destruct (setitem _ _ _) as [regs|]; [|discriminate].
  rewrite bind_Ok. intros [= <-]. eauto.
Qed.

Lemma reg_aug_shape op s s' i rhs :
  reg_aug op s i rhs = Ok s' -> exists regs, s' = with_reg regs s.
Proof.
  unfold reg_aug.
  destruct (reg_get s i); [|discriminate]. rewrite bind_Ok.
  destruct rhs; [|discriminate]. rewrite bind_Ok.
  destruct (op _ _); [|discriminate]. rewrite bind_Ok.
  apply reg_set_shape.
Qed.

Lemma pc_advance_shape k s s' :
  pc_advance k s = Ok s' -> exists v, s' = with_pc v s.
Proof.
  unfold pc_advance. destruct (py_add _ _) as [v|]; [|discriminate].
  rewrite bind_Ok. intros [= <-]. eauto.
Qed.

(** Takes a successful run of a handler apart, access by access, until the
    final state is written as updates of the initial one. *)
Ltac shape_step :=
  match goal with
  | H : Ok _ = Ok _ |- _ => injection H as <-
  | H : ram_write _ _ _ = Ok _ |- _ => apply ram_write_shape in H as [? ->]
  | H : reg_set _ _ _ = Ok _ |- _ => apply reg_set_shape in H as [? ->]
  | H : reg_aug _ _ _ _ = Ok _ |- _ => apply reg_aug_shape in H as [? ->]
  | H : pc_advance _ _ = Ok _ |- _ => apply pc_advance_shape in H as [? ->]
  | H : (_ ≫= _) = Ok _ |- _ => bind_inv H
  | H : (if ?b then _ else _) = Ok _ |- _ => destruct b
  | H : (let _ := _ in _) = Ok _ |- _ => cbv zeta in H
  | H : Raise _ = Ok _ |- _ => discriminate H
  end.

Ltac unfold_handlers H :=
  unfold add, mul, div, alu_instr, alu, call, comp, hlt, inc, inte, iret,
    jeq, jmp, jne, jump, ldi, nop, pop, pra, prn, push, ret, st in H.

Ltac split_ifs :=
  repeat match goal with
         | |- context [if ?b then _ else _] => destruct b
         end.

(** One goal per entry of the dispatch table. *)
Ltac each_handler Hin :=
  cbn in Hin; repeat (destruct Hin as [[= <- <-]|Hin]); [..|contradiction].

(** X4: of the twenty handlers only PUSH, CALL, RET and ST write memory;
    every other instruction that completes leaves all 256 cells as they
    were (POP, in particular, does not clear the cell it pops). *)
Theorem memory_written_only_by_push_call_ret_st (k : Z) (h : handler)
    (s s' : cpu) :
  In (k, h) dispatch_table ->
  k <> PUSH -> k <> CALL -> k <> RET -> k <> ST ->
  h s = Ok s' ->
  ram s' = ram s.
Proof.
  intros Hin Hpush Hcall Hret Hst H. each_handler Hin.
  all: try contradiction.
  all: unfold_handlers H; repeat shape_step; cbn [ram with_pc with_reg with_ram
         with_running with_fl print]; split_ifs; reflexivity.
Qed.

Lemma memory_written_only_by_push_call_ret_st_witness :
  ram (with_pc (VInt 7) (with_ram (ram pushed_state) push_state))
  = ram pushed_state.
Proof.
  apply (memory_written_only_by_push_call_ret_st POP pop pushed_state).
  - cbn. tauto.
  - discriminate.
  - discriminate.
  - discriminate.
  - discriminate.
  - reflexivity.
Defined.

(** X5: COMP, the three jumps, PRN, PRA, NOP, HLT, ST and the three
    reserved instructions never change a register. *)
Theorem registers_kept_by_compare_jump_print_store (k : Z) (h : handler)
    (s s' : cpu) :
  In (k, h) dispatch_table ->
  In k [COMP; JEQ; JMP; JNE; PRN; PRA; NOP; HLT; ST; INC; INTE; IRET] ->
  h s = Ok s' ->
  reg s' = reg s.
Proof.
  intros Hin Hk H. each_handler Hin.
  all: try (exfalso; cbn in Hk; intuition discriminate).
  all: unfold_handlers H; repeat shape_step; cbn [reg with_pc with_reg with_ram
         with_running with_fl print]; split_ifs; reflexivity.
Qed.

Lemma registers_kept_by_compare_jump_print_store_witness :
  reg (with_pc (VInt (6 + 3)) (with_fl 4 comp_state)) = reg comp_state.
Proof.
  apply (registers_kept_by_compare_jump_print_store COMP comp comp_state).
  - cbn. tauto.
  - cbn. tauto.
  - reflexivity.
Defined.

(** ** Instruction widths *)

Ltac advance_pc Hpc :=
  repeat match goal with
         | H : pc_advance ?k ?t = Ok _ |- _ =>
             rewrite (pc_advance_int t _ k Hpc) in H
         | H : context [if ?b then _ else _] |- _ => destruct b
         end.

(** X2: an instruction that completes moves an integer PC by its own
    width: 3 for ADD, MUL, DIV, COMP, LDI and ST, 2 for PRN, PUSH and POP,
    1 for NOP; HLT, PRA and the reserved INC, INTE and IRET leave PC where
    it is. *)
Theorem instruction_widths (k : Z) (h : handler) (s s' : cpu) (p : Z) :
  In (k, h) dispatch_table ->
  pc s = VInt p ->
  h s = Ok s' ->
  (In k [ADD; MUL; DIV; COMP; LDI; ST] -> pc s' = VInt (p + 3))
  /\ (In k [PRN; PUSH; POP] -> pc s' = VInt (p + 2))
  /\ (k = NOP -> pc s' = VInt (p + 1))
  /\ (In k [HLT; PRA; INC; INTE; IRET] -> pc s' = VInt p).
Proof.
  intros Hin Hpc H. each_handler Hin.
  all: repeat split; intros Hk.
  all: try (exfalso; cbn in Hk; intuition discriminate).
  all: unfold_handlers H.
  all: repeat match goal with
              | H : (_ ≫= _) = Ok _ |- _ => bind_inv H
              | H : ram_write _ _ _ = Ok _ |- _ =>
                  apply ram_write_shape in H as [? ->]
              | H : reg_set _ _ _ = Ok _ |- _ =>
                  apply reg_set_shape in H as [? ->]
              | H : reg_aug _ _ _ _ = Ok _ |- _ =>
                  apply reg_aug_shape in H as [? ->]
              | H : (if ?b then _ else _) = Ok _ |- _ => destruct b
              | H : Raise _ = Ok _ |- _ => discriminate H
              | H : Ok _ = Ok _ |- _ => injection H as <-
              end.
  all: advance_pc Hpc.
  all: repeat match goal with
              | H : (_ ≫= _) = Ok _ |- _ => bind_inv H
              | H : Ok _ = Ok _ |- _ => injection H as <-
              end.
  all: try reflexivity; try exact Hpc.
Qed.

Lemma instruction_widths_witness :
  pc (with_pc (VInt (6 + 3)) (with_fl 4 comp_state)) = VInt (6 + 3).
Proof.
  destruct (instruction_widths COMP comp comp_state
              (with_pc (VInt (6 + 3)) (with_fl 4 comp_state)) 6) as [H _].
  - cbn. tauto.
  - reflexivity.
  - reflexivity.
  - apply H. cbn. tauto.
Defined.

(** ** Illegal opcodes *)

(** A computation that does not end in KeyError. *)
Local Abbreviation no_KeyError m := (m <> Raise KeyError).

Lemma bind_no_KeyError {A B} (m : result A) (k : A -> result B) :
  no_KeyError m -> (forall a, no_KeyError (k a)) -> no_KeyError (m ≫= k).
Proof.
  intros Hm Hk. destruct m as [a|e]; [rewrite bind_Ok; apply Hk|].
  rewrite bind_Raise. congruence.
Qed.

Lemma list_index_no_KeyError {A} (l : list A) i : no_KeyError (list_index l i).
Proof.
  unfold list_index. destruct i as [z|f]; [|discriminate].
  cbv zeta. repeat destruct (_ && _); discriminate.
Qed.

Lemma getitem_no_KeyError {A} (l : list A) i : no_KeyError (getitem l i).
Proof.
  unfold getitem. apply bind_no_KeyError; [apply list_index_no_KeyError|].
  intros k. destruct (l !! k); discriminate.
Qed.

Lemma setitem_no_KeyError {A} (l : list A) i x : no_KeyError (setitem l i x).
Proof.
  unfold setitem. apply bind_no_KeyError; [apply list_index_no_KeyError|].
  discriminate.
Qed.

Lemma to_float_no_KeyError v : no_KeyError (to_float v).
Proof.
  destruct v as [z|f]; [|discriminate]. cbn [to_float].
  unfold PyFloat.of_int, PyFloat.overflow_check.
  destruct (binary_normalize _ _ _ _ _); discriminate.
Qed.

Lemma arith_no_KeyError fz ff a b : no_KeyError (arith fz ff a b).
Proof.
  unfold arith. destruct a, b; try discriminate;
    (apply bind_no_KeyError; [apply to_float_no_KeyError|intros ?]);
    (apply bind_no_KeyError; [apply to_float_no_KeyError|intros ?]);
    discriminate.
Qed.

Lemma py_truediv_no_KeyError a b : no_KeyError (py_truediv a b).
Proof.
  unfold py_truediv.
  assert (Hmixed : forall a b,
    no_KeyError (x ← to_float a; y ← to_float b;
                 if SFeqb y (S754_zero false) then Raise ZeroDivisionError
                 else Ok (VFloat (PyFloat.div x y)))).
  { intros a' b'. apply bind_no_KeyError; [apply to_float_no_KeyError|intros ?].
    apply bind_no_KeyError; [apply to_float_no_KeyError|intros ?].
    destruct (SFeqb _ _); discriminate. }
  destruct a as [x|f], b as [y|g]; try apply Hmixed.
  destruct (y =? 0); [discriminate|].
  apply bind_no_KeyError; [|discriminate].
  unfold PyFloat.int_truediv, PyFloat.overflow_check.
  destruct (PyFloat.div _ _); discriminate.
Qed.

Lemma py_chr_no_KeyError v : no_KeyError (py_chr v).
Proof.
  destruct v as [z|f]; [|discriminate]. cbn [py_chr].
  repeat destruct (_ && _); discriminate.
Qed.

Ltac no_KeyError_step :=
  first
    [ apply getitem_no_KeyError
    | apply setitem_no_KeyError
    | apply arith_no_KeyError
    | apply py_truediv_no_KeyError
    | apply py_chr_no_KeyError
    | apply bind_no_KeyError; [|intros ?]
    | match goal with
      | |- no_KeyError (if ?b then _ else _) => destruct b
      | |- no_KeyError (Ok _) => discriminate
      | |- no_KeyError (Raise _) => discriminate
      end ].

(** No handler raises KeyError of its own. *)
Lemma handlers_no_KeyError k h s :
  In (k, h) dispatch_table -> no_KeyError (h s).
Proof.
  intros Hin. each_handler Hin.
  all: unfold add, mul, div, alu_instr, alu, call, comp, hlt, inc, inte, iret,
         jeq, jmp, jne, jump, ldi, nop, pop, pra, prn, push, ret, st,
         operand, ram_read, ram_write, reg_get, reg_set, reg_aug, pc_advance,
         py_add, py_sub, py_mul; cbv zeta.
  all: repeat no_KeyError_step.
Qed.

Lemma dispatch_int z :
  dispatch (VInt z)
  = match find (fun e => fst e =? z) dispatch_table with
    | Some e => Ok (snd e)
    | None => Raise KeyError
    end.
Proof. reflexivity. Qed.

(** X1: when the cell at PC holds an integer, executing it ends in
    KeyError exactly when that integer is not one of the twenty opcodes
    of the dispatch table: no handler raises KeyError itself. *)
Theorem execute_KeyError_iff_unknown_opcode (s : cpu) (z : Z) :
  getitem (ram s) (pc s) = Ok (VInt z) ->
  execute s = Raise KeyError <-> ~ In z opcodes.
Proof.
  intros Hfetch. unfold execute. rewrite Hfetch, bind_Ok, dispatch_int.
  destruct (find _ dispatch_table) as [e|] eqn:Hfind.
  - apply find_some in Hfind as [Hin Hz]. apply Z.eqb_eq in Hz.
    rewrite bind_Ok. split.
    + intros H. exfalso. destruct e as [k h].
      exact (handlers_no_KeyError k h s Hin H).
    + intros Hnot. exfalso. apply Hnot. unfold opcodes.
      rewrite <- Hz. now apply in_map.
  - rewrite bind_Raise. split; [|reflexivity].
    intros _ Hin. unfold opcodes in Hin.
    apply in_map_iff in Hin as (e & He & Hin).
    pose proof (find_none _ _ Hfind e Hin) as Hne. cbn beta in Hne.
    apply Z.eqb_neq in Hne. contradiction.
Qed.

Lemma execute_KeyError_iff_unknown_opcode_witness :
  execute (boot 0 [0xFF]) = Raise KeyError <-> ~ In 0xFF opcodes.
Proof.
  apply (execute_KeyError_iff_unknown_opcode (boot 0 [0xFF]) 0xFF).
  reflexivity.
Defined.

(** ** The interrupt check and the rest of the state *)

Lemma execute_handler s s' :
  execute s = Ok s' -> exists k h, In (k, h) dispatch_table /\ h s = Ok s'.
Proof.
  unfold execute. intros H. bind_inv H. bind_inv H.
  unfold dispatch in E0.
  destruct (dict_key _); [|discriminate].
  destruct (find _ dispatch_table) as [[k h]|] eqn:Hfind; [|discriminate].
  injection E0 as <-. apply find_some in Hfind as [Hin _]. eauto.
Qed.

Lemma same_control_refl s : same_control s s.
Proof. repeat split. Qed.

Lemma same_control_trans s1 s2 s3 :
  same_control s1 s2 -> same_control s2 s3 -> same_control s1 s3.
Proof. unfold same_control. intuition congruence. Qed.

Lemma push_each_same_control regs : forall s s',
  push_each regs s = Ok s' -> same_control s s'.
Proof.
  induction regs as [|v regs IH]; intros s s' H; cbn [push_each] in H.
  - injection H as <-. apply same_control_refl.
  - bind_inv H. bind_inv H. bind_inv H.
    apply reg_aug_shape in E as [? ->]. apply ram_write_shape in E1 as [? ->].
    eapply same_control_trans; [|apply IH; exact H]. repeat split.
Qed.

(** What taking the interrupt does to the fields outside memory and the
    register file. *)
Lemma enter_interrupt_control now s s' :
  enter_interrupt now s = Ok s' ->
  running s' = running s /\ interrupts_disabled s' = true
  /\ last_time s' = now /\ fl s' = fl s /\ stdout s' = stdout s.
Proof.
  unfold enter_interrupt. cbv zeta. intros H.
  do 9 bind_inv H. injection H as <-.
  apply reg_set_shape in E as [? ->]. apply reg_aug_shape in E0 as [? ->].
  apply ram_write_shape in E2 as [? ->]. apply reg_aug_shape in E3 as [? ->].
  apply ram_write_shape in E5 as [? ->].
  apply push_each_same_control in E6 as (Hr & Hi & Ht & Hp & Hf & Ho).
  cbn in *. repeat split; assumption.
Qed.

Lemma scan_bits_cases idxs m now : forall s s',
  scan_bits idxs m now s = Ok s' -> s' = s \/ enter_interrupt now s = Ok s'.
Proof.
  induction idxs as [|idx idxs IH]; intros s s' H; cbn [scan_bits] in H.
  - injection H as <-. now left.
  - destruct (String.get idx _); [|discriminate].
    destruct (Ascii.eqb _ _); [now right|now apply IH].
Qed.

(** The check either does nothing, or (only with interrupts enabled) sets
    R6 and possibly goes on to take the interrupt. *)
Lemma check_interrupts_cases now s s' :
  check_interrupts now s = Ok s' ->
  s' = s
  \/ (interrupts_disabled s = false
      /\ exists regs,
           s' = with_reg regs s
           \/ enter_interrupt now (with_reg regs s) = Ok s').
Proof.
  unfold check_interrupts. intros H.
  destruct (interrupts_disabled s) eqn:Hdis; cbn [negb] in H;
    [injection H as <-; now left|].
  bind_inv H. bind_inv H.
  destruct (negb _); [|injection H as <-; now left].
  destruct (1 <=? _); [|injection H as <-; now left].
  do 4 bind_inv H. apply reg_set_shape in E1 as [regs ->].
  right. split; [reflexivity|]. exists regs.
  now apply scan_bits_cases in H.
Qed.

Lemma check_interrupts_control now s s' :
  check_interrupts now s = Ok s' ->
  running s' = running s /\ fl s' = fl s /\ stdout s' = stdout s
  /\ (interrupts_disabled s = true ->
      interrupts_disabled s' = true /\ last_time s' = last_time s).
Proof.
  intros H.
  destruct (check_interrupts_cases now s s' H)
    as [->|(Hdis & regs & [->|Henter])].
  - repeat split; auto.
  - cbn. repeat split; congruence.
  - apply enter_interrupt_control in Henter as (Hr & _ & _ & Hf & Ho).
    cbn in *. repeat split; congruence.
Qed.

(** With the latch closed, or with bit 0 of an integer R5 clear, the check
    does nothing, whatever the clock says. *)
Lemma timer_idle now s :
  interrupts_disabled s = true
  \/ (exists im, reg_get s IM = Ok (VInt im) /\ Z.land im 1 = 0) ->
  check_interrupts now s = Ok s.
Proof.
  unfold check_interrupts. intros [Hdis|(im & HIM & Hbit)].
  - now rewrite Hdis.
  - destruct (negb (interrupts_disabled s)); [|reflexivity].
    rewrite HIM, bind_Ok. cbn [py_and]. now rewrite bind_Ok, Hbit.
Qed.

(** What a handler does to the fields that only some handlers touch. *)
Lemma handlers_control k h s s' :
  In (k, h) dispatch_table -> h s = Ok s' ->
  interrupts_disabled s' = interrupts_disabled s
  /\ last_time s' = last_time s
  /\ (fl s' = fl s \/ fl s' = 1 \/ fl s' = 2 \/ fl s' = 4)
  /\ (stdout s' = stdout s \/ exists e, stdout s' = stdout s ++ [e])
  /\ (k <> HLT -> k <> DIV -> running s' = running s).
Proof.
  intros Hin H. each_handler Hin.
  all: unfold_handlers H; cbn [String.eqb Ascii.eqb Bool.eqb] in H;
    repeat shape_step.
  all: split_ifs.
  all: cbn [interrupts_disabled last_time fl stdout running with_pc with_reg
         with_ram with_running with_fl print].
  all: repeat split; try (intros; congruence); eauto.
Qed.

(** ** Reserved instructions *)

(** X3: INC, INTE and IRET do nothing at all, not even advance PC; while
    the timer stays quiet (latch closed, or bit 0 of R5 clear) a running
    machine whose PC is on one of them never halts and never raises: the
    loop is still running after any number of iterations. *)
Theorem reserved_instructions_never_finish (s : cpu) (k : Z) :
  running s = true ->
  interrupts_disabled s = true
  \/ (exists im, reg_get s IM = Ok (VInt im) /\ Z.land im 1 = 0) ->
  getitem (ram s) (pc s) = Ok (VInt k) ->
  In k [INC; INTE; IRET] ->
  forall fuel clock, run_loop fuel clock s = None.
Proof.
  intros Hrun Hidle Hfetch Hk.
  assert (Hstep : forall now, step now s = Ok s).
  { intros now. unfold step. rewrite (timer_idle now s Hidle), bind_Ok.
    unfold execute. rewrite Hfetch, bind_Ok.
    cbn in Hk. destruct Hk as [<-|[<-|[<-|[]]]]; reflexivity. }
  induction fuel as [|fuel IH]; intros clock; cbn [run_loop]; rewrite Hrun.
  - reflexivity.
  - rewrite Hstep. apply IH.
Qed.

Lemma reserved_instructions_never_finish_witness :
  run_loop 1000 (fun i => Z.of_nat i * one_second)
    (with_running true (boot 0 [IRET; HLT])) = None.
Proof.
  apply (reserved_instructions_never_finish
           (with_running true (boot 0 [IRET; HLT])) IRET).
  - reflexivity.
  - right. exists 0. split; reflexivity.
  - reflexivity.
  - cbn. tauto.
Defined.

(** ** Invariants of the loop *)

(** A property kept by every step is kept by the loop. *)
Lemma run_loop_invariant (P : cpu -> Prop) :
  (forall now s s', P s -> step now s = Ok s' -> P s') ->
  forall fuel clock s s',
    P s -> run_loop fuel clock s = Some (Ok s') -> P s'.
Proof.
  intros Hstep. induction fuel as [|fuel IH]; intros clock s s' HP H;
    cbn [run_loop] in H; destruct (running s).
  - discriminate.
  - now injection H as <-.
  - destruct (step (clock O) s) as [s1|] eqn:E; [|discriminate].
    eapply IH; [|exact H]. eapply Hstep; eassumption.
  - now injection H as <-.
Qed.

Lemma step_fl_legal now s s' :
  fl_legal (fl s) -> step now s = Ok s' -> fl_legal (fl s').
Proof.
  intros Hfl H. unfold step in H. bind_inv H.
  apply check_interrupts_control in E as (_ & Hf & _).
  apply execute_handler in H as (k & h & Hin & Hh).
  destruct (handlers_control k h _ _ Hin Hh) as (_ & _ & Hfl' & _).
  unfold fl_legal in *. rewrite Hf in Hfl'. intuition congruence.
Qed.

(** X6: FL never holds anything but 0 (its initial value) or one of the
    three single flag bits 1, 2, 4: a run that starts with such an FL and
    returns ends with such an FL.  Only COMP writes FL, and the interrupt
    sequence saves it without changing it. *)
Theorem run_keeps_fl_legal (fuel : nat) (clock : nat -> Z) (s s' : cpu) :
  fl_legal (fl s) ->
  run fuel clock s = Some (Ok s') ->
  fl_legal (fl s').
Proof.
  intros Hfl H. unfold run in H.
  exact (run_loop_invariant (fun t => fl_legal (fl t))
           (fun now t t' => step_fl_legal now t t')
           fuel clock (with_running true s) s' Hfl H).
Qed.

Lemma run_keeps_fl_legal_witness :
  fl_legal (fl (with_running false
                  (with_pc (VInt 9) (with_fl 4 comp_state)))).
Proof.
  apply (run_keeps_fl_legal 2 (fun _ => 0) comp_state).
  - left. reflexivity.
  - reflexivity.
Defined.

Lemma step_stdout now s s' :
  step now s = Ok s' -> exists out, stdout s' = stdout s ++ out.
Proof.
  intros H. unfold step in H. bind_inv H.
  apply check_interrupts_control in E as (_ & _ & Ho & _).
  apply execute_handler in H as (k & h & Hin & Hh).
  destruct (handlers_control k h _ _ Hin Hh) as (_ & _ & _ & [Hout|[e Hout]] & _).
  - exists []. rewrite Hout, Ho. now rewrite app_nil_r.
  - exists [e]. now rewrite Hout, Ho.
Qed.

(** X8: output is only ever appended: whatever had been printed before a
    run is a prefix of what has been printed after it. *)
Theorem run_only_appends_output (fuel : nat) (clock : nat -> Z)
    (s s' : cpu) :
  run fuel clock s = Some (Ok s') ->
  exists out, stdout s' = stdout s ++ out.
Proof.
  intros H. unfold run in H.
  apply (run_loop_invariant (fun t => exists out, stdout t = stdout s ++ out))
    with (fuel := fuel) (clock := clock) (s := with_running true s);
    [|exists []; cbn; now rewrite app_nil_r|exact H].
  intros now t t' [out Hout] Hstep.
  destruct (step_stdout now t t' Hstep) as [out' Hout'].
  exists (out ++ out'). now rewrite Hout', Hout, app_assoc.
Qed.

Lemma run_only_appends_output_witness :
  exists out,
    stdout (with_running false
              (with_pc (VInt 5)
                 (print (EmitVal (VInt 8))
                    (with_reg (<[0%nat := VInt 8]> (reg (new_cpu 0)))
                       (boot 0 print8)))))
    = stdout (boot 0 print8) ++ out.
Proof.
  apply (run_only_appends_output 3 (fun _ => 0) (boot 0 print8)).
  reflexivity.
Defined.



Lemma step_latched now s s' :
  interrupts_disabled s = true -> step now s = Ok s' ->
  interrupts_disabled s' = true /\ last_time s' = last_time s.
Proof.
  intros Hdis H. unfold step in H.
  rewrite (timer_idle now s (or_introl Hdis)), bind_Ok in H.
  apply execute_handler in H as (k & h & Hin & Hh).
  destruct (handlers_control k h _ _ Hin Hh) as (Hd & Ht & _).
  split; congruence.
Qed.

(** X7: no instruction re-enables interrupts (IRET does nothing), so once
    the latch is closed it stays closed: from such a state the run does not
    depend on the clock at all, and it ends with the latch still closed and
    [last_time] unchanged.  At most one interrupt is taken per machine. *)
Theorem latched_run_ignores_clock (s : cpu) :
  interrupts_disabled s = true ->
  (forall fuel clock clock', run_loop fuel clock s = run_loop fuel clock' s)
  /\ (forall fuel clock s',
        run_loop fuel clock s = Some (Ok s') ->
        interrupts_disabled s' = true /\ last_time s' = last_time s).
Proof.
  intros Hdis. split.
  - intros fuel. revert s Hdis.
    induction fuel as [|fuel IH]; intros s Hdis clock clock'; [reflexivity|].
    cbn [run_loop]. destruct (running s); [|reflexivity].
    assert (Heq : step (clock O) s = step (clock' O) s).
    { unfold step. now rewrite !(timer_idle _ s (or_introl Hdis)). }
    rewrite <- Heq. destruct (step (clock O) s) as [s1|] eqn:E; [|reflexivity].
    apply IH. now destruct (step_latched _ _ _ Hdis E).
  - intros fuel clock s' H.
    apply (run_loop_invariant
             (fun t => interrupts_disabled t = true
                       /\ last_time t = last_time s))
      with (fuel := fuel) (clock := clock) (s := s); [|now split|exact H].
    intros now t t' [Hd Ht] Hstep.
    destruct (step_latched now t t' Hd Hstep) as [Hd' Ht'].
    split; congruence.
Qed.

Lemma latched_run_ignores_clock_witness :
  run_loop 5 (fun _ => 0)
    (with_running true (with_interrupts_disabled true armed_state))
  = run_loop 5 (fun i => Z.of_nat i * one_day)
      (with_running true (with_interrupts_disabled true armed_state)).
Proof.
  apply (latched_run_ignores_clock
           (with_running true (with_interrupts_disabled true armed_state))).
  reflexivity.
Defined.

(** ** More on the stack *)

Lemma reg_lookup_SP s sp :
  wf s -> reg_get s SP = Ok (VInt sp) -> reg s !! 7%nat = Some (VInt sp).
Proof.
  intros Hwf Hsp. destruct (getitem_Ok _ _ _ Hsp) as (k7 & Hk7 & Hl7).
  rewrite (list_index_SP s Hwf) in Hk7. now injection Hk7 as <-.
Qed.

(** X9: PUSH of a valid register with an integer stack pointer [sp]
    succeeds exactly when [sp - 1] is a Python index of the 256-cell
    memory, that is for [sp] in [-255, 256]: the word goes to cell
    [(sp - 1) mod 256], so at [sp = 0] the stack wraps to cell 255 with SP
    becoming -1.  Outside that range PUSH raises IndexError. *)
Theorem push_succeeds_iff_slot_is_an_index (s : cpu) (r : value) (k : nat)
    (sp : Z) :
  wf s ->
  operand s 1 = Ok r -> list_index (reg s) r = Ok k ->
  reg_get s SP = Ok (VInt sp) ->
  (-255 <= sp <= 256 ->
     exists s',
       push s = Ok s'
       /\ reg_get s' SP = Ok (VInt (sp - 1))
       /\ ram s' !! cell (sp - 1) = <[7%nat := VInt (sp - 1)]> (reg s) !! k
       /\ forall j, j <> cell (sp - 1) -> ram s' !! j = ram s !! j)
  /\ (sp < -255 \/ 256 < sp -> push s = Raise IndexError).
Proof.
  intros Hwf Hop Hk Hsp.
  destruct (operand_pc_int _ _ _ Hop) as [p Hpc].
  set (regs1 := <[7%nat := VInt (sp - 1)]> (reg s)).
  assert (Hk1 : list_index regs1 r = Ok k).
  { rewrite <- Hk. apply list_index_length. apply length_insert. }
  destruct (getitem_lookup regs1 r k Hk1) as (v & Hv & Hget).
  assert (Hstart : push s =
    (s2 ← ram_write (with_reg regs1 s) (VInt (sp - 1)) v; pc_advance 2 s2)).
  { unfold push. rewrite (dec_sp s sp Hwf Hsp), bind_Ok.
    rewrite (reg_get_SP_insert s _ Hwf), bind_Ok.
    change (operand (with_reg _ s) 1) with (operand s 1).
    rewrite Hop, bind_Ok.
    change (getitem regs1 r) with (reg_get (with_reg regs1 s) r) in Hget.
    unfold regs1 in Hget |- *. now rewrite Hget, bind_Ok. }
  rewrite Hstart. split.
  - intros Hrange.
    assert (Hwf1 : wf (with_reg regs1 s))
      by (apply wf_with_reg; [exact Hwf|apply length_insert]).
    rewrite (ram_write_Ok _ _ _ (cell (sp - 1)))
      by (apply list_index_cell; [exact Hwf1|lia]).
    rewrite bind_Ok, (pc_advance_int _ p) by exact Hpc.
    eexists. split; [reflexivity|]. split; [|split].
    + apply (reg_get_SP_insert s _ Hwf).
    + cbn [ram reg with_pc with_ram with_reg]. fold regs1. rewrite Hv.
      apply list_lookup_insert_eq. rewrite (proj1 Hwf). apply cell_bound.
    + intros j Hj. cbn [ram reg with_pc with_ram with_reg].
      now apply list_lookup_insert_ne.
  - intros Hout. unfold ram_write, setitem. cbn [ram with_reg].
    rewrite list_index_outside by (rewrite (proj1 Hwf); lia).
    reflexivity.
Qed.

Lemma push_succeeds_iff_slot_is_an_index_witness :
  exists s',
    push (with_reg (<[7%nat := VInt 0]> (reg push_state)) push_state) = Ok s'
    /\ reg_get s' SP = Ok (VInt (0 - 1))
    /\ ram s' !! cell (0 - 1)
       = <[7%nat := VInt (0 - 1)]>
           (reg (with_reg (<[7%nat := VInt 0]> (reg push_state)) push_state))
         !! 1%nat
    /\ forall j, j <> cell (0 - 1) ->
         ram s' !! j
         = ram (with_reg (<[7%nat := VInt 0]> (reg push_state)) push_state) !! j.
Proof.
  destruct (push_succeeds_iff_slot_is_an_index
              (with_reg (<[7%nat := VInt 0]> (reg push_state)) push_state)
              (VInt 1) 1%nat 0) as [H _].
  - split; reflexivity.
  - reflexivity.
  - reflexivity.
  - reflexivity.
  - apply H. lia.
Defined.

(** POP into a register other than R7, in full. *)
Lemma pop_spec s p sp v r k :
  wf s -> pc s = VInt p ->
  reg_get s SP = Ok (VInt sp) -> ram_read s (VInt sp) = Ok v ->
  operand s 1 = Ok r -> list_index (reg s) r = Ok k -> k <> 7%nat ->
  pop s = Ok (with_pc (VInt (p + 2))
                (with_reg (<[7%nat := VInt (sp + 1)]> (<[k := v]> (reg s))) s)).
Proof.
  intros Hwf Hpc Hsp Hv Hop Hk Hk7. unfold pop.
  rewrite Hsp, bind_Ok, Hv, bind_Ok, Hop, bind_Ok.
  rewrite (reg_set_Ok _ _ _ k) by exact Hk. rewrite bind_Ok.
  set (s1 := with_reg _ s).
  assert (Hwf1 : wf s1) by (apply wf_with_reg; [exact Hwf|apply length_insert]).
  assert (Hsp1 : reg_get s1 SP = Ok (VInt sp)).
  { rewrite <- Hsp. unfold reg_get, s1. cbn [reg with_reg].
    apply (getitem_insert_other _ r); [exact Hk|].
    rewrite (list_index_SP s Hwf). congruence. }
  rewrite (inc_sp s1 sp Hwf1 Hsp1), bind_Ok.
  set (s2 := with_reg _ s1).
  rewrite (pc_advance_int s2 p 2) by exact Hpc. rewrite bind_Ok.
  assert (Hop3 : operand (with_pc (VInt (p + 2)) s2) (-1) = Ok r).
  { rewrite <- Hop. unfold operand. cbn [pc with_pc]. rewrite Hpc, !py_add_int.
    replace (p + 2 + -1) with (p + 1) by lia. reflexivity. }
  rewrite Hop3, bind_Ok.
  assert (Hk3 : list_index (reg (with_pc (VInt (p + 2)) s2)) r = Ok k).
  { rewrite <- Hk. apply list_index_length. unfold s2, s1.
    cbn [reg with_pc with_reg]. now rewrite !length_insert. }
  destruct (getitem_lookup _ _ _ Hk3) as (y & _ & Hy).
  change (getitem (reg ?t) r) with (reg_get t r) in Hy.
  rewrite Hy, bind_Ok. reflexivity.
Qed.

(** X10: PUSH of one register followed by POP into another (neither of
    them R7) copies the first register's value into the second, restores
    SP, and leaves every other register as it was. *)
Theorem push_then_pop_moves_value (s s1 : cpu) (r1 r2 : value) (k1 k2 : nat) :
  wf s ->
  operand s 1 = Ok r1 -> list_index (reg s) r1 = Ok k1 -> k1 <> 7%nat ->
  push s = Ok s1 ->
  operand s1 1 = Ok r2 -> list_index (reg s) r2 = Ok k2 -> k2 <> 7%nat ->
  exists s2 v,
    pop s1 = Ok s2
    /\ reg_get s r1 = Ok v
    /\ reg s2 = <[k2 := v]> (reg s).
Proof.
  intros Hwf Hop1 Hk1 Hk17 Hpush Hop2 Hk2 Hk27.
  destruct (push_Ok_inv s s1 r1 Hwf Hop1 Hpush)
    as (p & sp & k & v & Hpc & Hsp & Hk & Hv & ->).
  set (regs1 := <[7%nat := VInt (sp - 1)]> (reg s)) in *.
  set (t := with_pc _ _) in *.
  assert (Hwft : wf t).
  { split; unfold t, regs1; cbn [ram reg with_pc with_ram with_reg];
      rewrite length_insert; apply Hwf. }
  assert (Hk2' : list_index (reg t) r2 = Ok k2).
  { rewrite <- Hk2. apply list_index_length. apply length_insert. }
  assert (Hspt : reg_get t SP = Ok (VInt (sp - 1)))
    by apply (reg_get_SP_insert s _ Hwf).
  assert (Hcell : ram_read t (VInt (sp - 1)) = Ok v).
  { unfold ram_read, t. cbn [ram with_pc with_ram].
    now apply getitem_insert_same. }
  rewrite (pop_spec t (p + 2) (sp - 1) v r2 k2 Hwft eq_refl Hspt Hcell
             Hop2 Hk2' Hk27).
  assert (Hv0 : reg_get s r1 = Ok v).
  { rewrite <- Hv. symmetry. unfold reg_get. cbn [reg with_reg].
    apply (getitem_insert_other _ SP); [apply list_index_SP, Hwf|].
    rewrite Hk1. congruence. }
  eexists _, v. split; [reflexivity|]. split; [exact Hv0|].
  cbn [reg with_pc with_reg]. change (reg t) with regs1. unfold regs1.
  rewrite (list_insert_insert_ne _ 7 k2) by congruence.
  rewrite list_insert_insert_eq.
  replace (sp - 1 + 1) with sp by lia.
  f_equal. apply list_insert_id, reg_lookup_SP; assumption.
Qed.

Lemma push_then_pop_moves_value_witness :
  exists s2 v,
    pop (with_ram (<[6%nat := VInt 2]> (ram pushed_state)) pushed_state)
      = Ok s2
    /\ reg_get (with_ram (<[6%nat := VInt 2]> (ram push_state)) push_state)
         (VInt 1) = Ok v
    /\ reg s2 = <[2%nat := v]> (reg push_state).
Proof.
  apply (push_then_pop_moves_value
           (with_ram (<[6%nat := VInt 2]> (ram push_state)) push_state)
           (with_ram (<[6%nat := VInt 2]> (ram pushed_state)) pushed_state)
           (VInt 1) (VInt 2) 1%nat 2%nat).
  - split; reflexivity.
  - reflexivity.
  - reflexivity.
  - discriminate.
  - reflexivity.
  - reflexivity.
  - reflexivity.
  - discriminate.
Defined.

(** ** Compare and branch *)

(** X11: after COMP on two integer registers, JEQ jumps to its operand
    register's value exactly when the integers are equal and JNE exactly
    when they differ; the one that does not jump falls through by 2. *)
Theorem compare_then_branch (s : cpu) (p a b : Z) (ra rb : value) :
  pc s = VInt p ->
  operand s 1 = Ok ra -> reg_get s ra = Ok (VInt a) ->
  operand s 2 = Ok rb -> reg_get s rb = Ok (VInt b) ->
  exists s1,
    comp s = Ok s1
    /\ forall r target,
         operand s1 1 = Ok r -> reg_get s1 r = Ok target ->
         jeq s1 = Ok (with_pc (if a =? b then target else VInt (p + 3 + 2)) s1)
         /\ jne s1 = Ok (with_pc (if a =? b then VInt (p + 3 + 2) else target) s1).
Proof.
  intros Hpc Ha HA Hb HB.
  eexists. split.
  - exact (comp_ordered s p ra rb (VInt a) (VInt b) (a ?= b)
             Hpc Ha HA Hb HB eq_refl).
  - intros r target Hr Ht. unfold jeq, jne, jump. rewrite Hr, !bind_Ok, Ht, !bind_Ok.
    cbn [fl with_pc with_fl].
    destruct (Z.compare_spec a b) as [Heq|Hlt|Hgt]; cbn [Z.land Z.eqb Pos.land].
    + apply Z.eqb_eq in Heq. rewrite Heq. split; reflexivity.
    + assert (Hne : (a =? b) = false) by (apply Z.eqb_neq; lia).
      rewrite Hne. split; reflexivity.
    + assert (Hne : (a =? b) = false) by (apply Z.eqb_neq; lia).
      rewrite Hne. split; reflexivity.
Qed.

Lemma compare_then_branch_witness :
  exists s1,
    comp comp_state = Ok s1
    /\ forall r target,
         operand s1 1 = Ok r -> reg_get s1 r = Ok target ->
         jeq s1 = Ok (with_pc (if 3 =? 9 then target else VInt (6 + 3 + 2)) s1)
         /\ jne s1 = Ok (with_pc (if 3 =? 9 then VInt (6 + 3 + 2) else target) s1).
Proof.
  apply (compare_then_branch comp_state 6 3 9 (VInt 0) (VInt 1));
    reflexivity.
Defined.

(** ** ST *)

(** X12: ST with an integer address [a] in register A stores register B's
    value in the cell that [a] denotes as a Python index: for [a] in
    [-256, 256) the value can be read back at [a], every other cell and
    every register is unchanged, and PC advances by 3; for any other
    integer address ST raises IndexError. *)
Theorem st_stores_or_raises (s : cpu) (p a : Z) (ra rb v : value) :
  wf s -> pc s = VInt p ->
  operand s 1 = Ok ra -> reg_get s ra = Ok (VInt a) ->
  operand s 2 = Ok rb -> reg_get s rb = Ok v ->
  (-256 <= a < 256 ->
     exists s',
       st s = Ok s'
       /\ ram_read s' (VInt a) = Ok v
       /\ (forall j, j <> cell a -> ram s' !! j = ram s !! j)
       /\ reg s' = reg s
       /\ pc s' = VInt (p + 3))
  /\ (a < -256 \/ 256 <= a -> st s = Raise IndexError).
Proof.
  intros Hwf Hpc Ha HA Hb HB. unfold st.
  rewrite Ha, bind_Ok, HA, bind_Ok, Hb, bind_Ok, HB, bind_Ok. split.
  - intros Hrange.
    pose proof (list_index_cell s a Hwf Hrange) as Hidx.
    rewrite (ram_write_Ok _ _ _ _ Hidx), bind_Ok.
    rewrite (pc_advance_int _ p) by exact Hpc.
    eexists. split; [reflexivity|]. split; [|split; [|split]]; try reflexivity.
    + unfold ram_read. cbn [ram with_pc with_ram].
      now apply getitem_insert_same.
    + intros j Hj. cbn [ram with_pc with_ram]. now apply list_lookup_insert_ne.
  - intros Hout. unfold ram_write, setitem.
    rewrite list_index_outside by (rewrite (proj1 Hwf); lia).
    reflexivity.
Qed.

Lemma st_stores_or_raises_witness :
  exists s',
    st st_state = Ok s'
    /\ ram_read s' (VInt (-2)) = Ok (VInt 77)
    /\ (forall j, j <> cell (-2) -> ram s' !! j = ram st_state !! j)
    /\ reg s' = reg st_state
    /\ pc s' = VInt (0 + 3).
Proof.
  destruct (st_stores_or_raises st_state 0 (-2) (VInt 0) (VInt 1) (VInt 77))
    as [H _].
  - split; reflexivity.
  - reflexivity.
  - reflexivity.
  - reflexivity.
  - reflexivity.
  - reflexivity.
  - apply H. lia.
Defined.

(** ** ADD and MUL *)

(** X13: ADD and MUL on two integer registers store the exact sum and the
    exact product in the first register and advance PC by 3: there is no
    reduction to 8 bits, so a register can hold any integer. *)
Theorem add_and_mul_do_not_wrap (s : cpu) (p a b : Z) (ra rb : value)
    (k : nat) :
  pc s = VInt p ->
  operand s 1 = Ok ra -> operand s 2 = Ok rb ->
  list_index (reg s) ra = Ok k ->
  reg_get s ra = Ok (VInt a) -> reg_get s rb = Ok (VInt b) ->
  add s = Ok (with_pc (VInt (p + 3))
                (with_reg (<[k := VInt (a + b)]> (reg s)) s))
  /\ mul s = Ok (with_pc (VInt (p + 3))
                   (with_reg (<[k := VInt (a * b)]> (reg s)) s)).
Proof.
  intros Hpc Ha Hb Hk HA HB.
  destruct (alu_integer_ops s ra rb a b k Hk HA HB) as (Hadd & _ & Hmul).
  unfold add, mul, alu_instr. split.
  - rewrite Ha, bind_Ok, Hb, bind_Ok, Hadd, bind_Ok.
    now apply pc_advance_int.
  - rewrite Ha, bind_Ok, Hb, bind_Ok, Hmul, bind_Ok.
    now apply pc_advance_int.
Qed.

Lemma add_and_mul_do_not_wrap_witness :
  add (with_reg (<[1%nat := VInt 100]> (<[0%nat := VInt 200]> (reg (new_cpu 0))))
         (boot 0 [ADD; 0; 1; HLT]))
  = Ok (with_pc (VInt (0 + 3))
          (with_reg (<[0%nat := VInt (200 + 100)]>
                       (<[1%nat := VInt 100]> (<[0%nat := VInt 200]> (reg (new_cpu 0)))))
             (with_reg (<[1%nat := VInt 100]> (<[0%nat := VInt 200]> (reg (new_cpu 0))))
                (boot 0 [ADD; 0; 1; HLT])))).
Proof.
  apply (add_and_mul_do_not_wrap
           (with_reg (<[1%nat := VInt 100]> (<[0%nat := VInt 200]> (reg (new_cpu 0))))
              (boot 0 [ADD; 0; 1; HLT]))
           0 200 100 (VInt 0) (VInt 1) 0%nat); reflexivity.
Defined.

(** ** Loading a program *)

Lemma with_ram_with_ram cells cells' s :
  with_ram cells (with_ram cells' s) = with_ram cells s.
Proof. reflexivity. Qed.

(** The copying loop of [load] from address [a], when the program fits. *)
Lemma load_from_fits program : forall (a : nat) s,
  wf s -> (a + length program <= 256)%nat ->
  load_from (Z.of_nat a) program s
  = Ok (with_ram (list_inserts a (VInt <$> program) (ram s)) s).
Proof.
  induction program as [|x program IH]; intros a s Hwf Hfit.
  - cbn. now destruct s.
  - cbn [load_from length] in *.
    rewrite (ram_write_Ok _ _ _ a).
    2:{ rewrite list_index_nonneg by (rewrite (proj1 Hwf); lia).
        now rewrite Nat2Z.id. }
    rewrite bind_Ok.
    replace (Z.of_nat a + 1) with (Z.of_nat (S a)) by lia.
    rewrite IH; [|apply wf_with_ram; [exact Hwf|apply length_insert]|lia].
    cbn [ram with_ram fmap list_fmap list_inserts].
    rewrite with_ram_with_ram. f_equal. f_equal.
    symmetry. apply list_insert_inserts_lt. lia.
Qed.

(** The copying loop runs off the end of memory when the program does not
    fit. *)
Lemma load_from_too_long program : forall (a : nat) s,
  wf s -> (a <= 256)%nat -> (256 < a + length program)%nat ->
  load_from (Z.of_nat a) program s = Raise IndexError.
Proof.
  induction program as [|x program IH]; intros a s Hwf Ha Hlong.
  - cbn [length] in Hlong. lia.
  - cbn [load_from length] in *.
    destruct (Nat.eq_dec a 256%nat) as [->|Hne].
    + unfold ram_write, setitem.
      rewrite list_index_outside by (rewrite (proj1 Hwf); lia).
      reflexivity.
    + rewrite (ram_write_Ok _ _ _ a).
      2:{ rewrite list_index_nonneg by (rewrite (proj1 Hwf); lia).
          now rewrite Nat2Z.id. }
      rewrite bind_Ok.
      replace (Z.of_nat a + 1) with (Z.of_nat (S a)) by lia.
      apply IH; [apply wf_with_ram; [exact Hwf|apply length_insert]|lia|lia].
Qed.

(** X14: [load] copies a program of at most 256 bytes to addresses 0, 1,
    ... in order and touches nothing else: memory beyond the program keeps
    what it held (it is not cleared), and registers and PC are unchanged.
    A program of more than 256 bytes raises IndexError. *)
Theorem load_copies_program (program : list Z) (s : cpu) :
  wf s ->
  ((length program <= 256)%nat ->
     exists s',
       load program s = Ok s'
       /\ (forall (i : nat) x, program !! i = Some x ->
             ram s' !! i = Some (VInt x))
       /\ (forall j : nat, (length program <= j)%nat ->
             ram s' !! j = ram s !! j)
       /\ reg s' = reg s /\ pc s' = pc s)
  /\ ((256 < length program)%nat -> load program s = Raise IndexError).
Proof.
  intros Hwf. split.
  - intros Hfit. eexists. split.
    + exact (load_from_fits program 0 s Hwf Hfit).
    + cbn [ram reg pc with_ram]. split; [|split; [|split]]; try reflexivity.
      * intros i x Hi.
        pose proof (lookup_lt_Some _ _ _ Hi) as Hlt.
        rewrite list_lookup_inserts;
          [|rewrite length_fmap; lia|rewrite (proj1 Hwf); lia].
        rewrite Nat.sub_0_r, list_lookup_fmap, Hi. reflexivity.
      * intros j Hj. apply list_lookup_inserts_ge.
        rewrite length_fmap. lia.
  - intros Hlong. apply (load_from_too_long program 0 s Hwf); lia.
Qed.

Lemma load_copies_program_witness :
  exists s',
    load print8 (new_cpu 0) = Ok s'
    /\ (forall (i : nat) x, print8 !! i = Some x ->
          ram s' !! i = Some (VInt x))
    /\ (forall j : nat, (length print8 <= j)%nat ->
          ram s' !! j = ram (new_cpu 0) !! j)
    /\ reg s' = reg (new_cpu 0) /\ pc s' = pc (new_cpu 0).
Proof.
  destruct (load_copies_program print8 (new_cpu 0) (wf_new_cpu 0)) as [H _].
  apply H. cbn. lia.
Defined.

(** ** The saved context *)

(** X15: with interrupts enabled, bit 0 of R5 set, SP in [-248, 256] and
    the [seconds] field of [now - last_time] at least 1, the interrupt
    check saves the context: PC is found at [sp - 1], FL at [sp - 2] and R0
    to R5 at [sp - 3] down to [sp - 8]; no other cell changes; SP ends 8
    lower, R6 is 0, the latch is closed, [last_time] is [now], and PC is
    what cell 0xF8 then holds.  FL, [running] and the output are unchanged,
    and the step goes on to execute the instruction at the new PC. *)
Theorem timer_interrupt_saves_context (s : cpu) (now : Z)
    (r0 r1 r2 r3 r4 r6 : value) (im sp : Z) :
  length (ram s) = 256%nat ->
  reg s = [r0; r1; r2; r3; r4; VInt im; r6; VInt sp] ->
  interrupts_disabled s = false ->
  Z.testbit im 0 = true ->
  1 <= seconds (datetime_sub now (last_time s)) ->
  -248 <= sp <= 256 ->
  exists s',
    check_interrupts now s = Ok s'
    /\ step now s = execute s'
    /\ ram_read s' (VInt (sp - 1)) = Ok (pc s)
    /\ ram_read s' (VInt (sp - 2)) = Ok (VInt (fl s))
    /\ ram_read s' (VInt (sp - 3)) = Ok r0
    /\ ram_read s' (VInt (sp - 4)) = Ok r1
    /\ ram_read s' (VInt (sp - 5)) = Ok r2
    /\ ram_read s' (VInt (sp - 6)) = Ok r3
    /\ ram_read s' (VInt (sp - 7)) = Ok r4
    /\ ram_read s' (VInt (sp - 8)) = Ok (VInt im)
    /\ (forall j : nat,
          (forall i, 0 <= i < 8 -> cell (sp - 1 - i) <> j) ->
          ram s' !! j = ram s !! j)
    /\ reg s' = [r0; r1; r2; r3; r4; VInt im; VInt 0; VInt (sp - 8)]
    /\ interrupts_disabled s' = true
    /\ last_time s' = now
    /\ ram_read s' (VInt 0xF8) = Ok (pc s')
    /\ fl s' = fl s /\ running s' = running s /\ stdout s' = stdout s.
Proof.
  intros Hram Hreg Hen Hbit Hsec Hsp.
  destruct (interrupt_entry s now r0 r1 r2 r3 r4 im r6 sp
              Hram Hreg Hen Hbit Hsec Hsp) as (Hcheck & Hstep & Hvec).
  set (saved := [pc s; VInt (fl s); r0; r1; r2; r3; r4; VInt im]) in *.
  set (regs := [r0; r1; r2; r3; r4; VInt im; VInt 0; VInt (sp - 8)]) in *.
  assert (Hword : forall (i : nat) v d, saved !! i = Some v ->
            d = sp - 1 - Z.of_nat i ->
            ram_read (interrupted now s sp saved regs) (VInt d) = Ok v).
  { intros i v d Hi ->. apply interrupted_stack; try assumption; cbn; lia. }
  eexists. split; [exact Hcheck|]. split; [exact Hstep|].
  split; [apply (Hword 0%nat); [reflexivity|lia]|].
  split; [apply (Hword 1%nat); [reflexivity|lia]|].
  split; [apply (Hword 2%nat); [reflexivity|lia]|].
  split; [apply (Hword 3%nat); [reflexivity|lia]|].
  split; [apply (Hword 4%nat); [reflexivity|lia]|].
  split; [apply (Hword 5%nat); [reflexivity|lia]|].
  split; [apply (Hword 6%nat); [reflexivity|lia]|].
  split; [apply (Hword 7%nat); [reflexivity|lia]|].
  split; [|split; [reflexivity|split; [reflexivity|split; [reflexivity|
    split; [exact Hvec|repeat split]]]]].
  intros j Hj. now apply interrupted_other_cells.
Qed.

Lemma timer_interrupt_saves_context_witness :
  exists s',
    check_interrupts one_second armed_state = Ok s'
    /\ step one_second armed_state = execute s'
    /\ ram_read s' (VInt (244 - 1)) = Ok (pc armed_state)
    /\ ram_read s' (VInt (244 - 2)) = Ok (VInt (fl armed_state))
    /\ ram_read s' (VInt (244 - 3)) = Ok (VInt 0)
    /\ ram_read s' (VInt (244 - 4)) = Ok (VInt 0)
    /\ ram_read s' (VInt (244 - 5)) = Ok (VInt 0)
    /\ ram_read s' (VInt (244 - 6)) = Ok (VInt 0)
    /\ ram_read s' (VInt (244 - 7)) = Ok (VInt 0)
    /\ ram_read s' (VInt (244 - 8)) = Ok (VInt 1)
    /\ (forall j : nat,
          (forall i, 0 <= i < 8 -> cell (244 - 1 - i) <> j) ->
          ram s' !! j = ram armed_state !! j)
    /\ reg s' = [VInt 0; VInt 0; VInt 0; VInt 0; VInt 0; VInt 1; VInt 0;
                 VInt (244 - 8)]
    /\ interrupts_disabled s' = true
    /\ last_time s' = one_second
    /\ ram_read s' (VInt 0xF8) = Ok (pc s')
    /\ fl s' = fl armed_state /\ running s' = running armed_state
    /\ stdout s' = stdout armed_state.
Proof.
  apply (timer_interrupt_saves_context armed_state one_second
           (VInt 0) (VInt 0) (VInt 0) (VInt 0) (VInt 0) (VInt 0) 1 244).
  - reflexivity.
  - reflexivity.
  - reflexivity.
  - reflexivity.
  - vm_compute. discriminate.
  - lia.
Defined.

(** ** COMP on a NaN *)

Lemma py_compare_nan_l B : py_compare (VFloat S754_nan) B = None.
Proof. destruct B as [z|g]; [reflexivity|]. now destruct g. Qed.

Lemma py_compare_nan_r A : py_compare A (VFloat S754_nan) = None.
Proof. destruct A as [z|f]; [reflexivity|]. now destruct f. Qed.

(** A NaN does reach a register: [nan_program] runs to its HLT with a NaN
    in R0, and the COMP of R0 with itself has left FL at 0. *)
Lemma nan_is_reachable :
  exists s',
    run 17 (fun _ => 0) (boot 0 nan_program) = Some (Ok s')
    /\ reg_get s' (VInt 0) = Ok (VFloat S754_nan)
    /\ fl s' = 0.
Proof.
  eexists. split; [vm_compute; reflexivity|]. split; reflexivity.
Qed.

(** X16: COMP has no final [else]: when either operand register holds a
    NaN none of [==], [<], [>] holds, so FL keeps the value it had and only
    PC moves (by 3); comparing a NaN register with itself does not raise
    the Equal flag. *)
Theorem comp_on_nan_keeps_fl (s : cpu) (p : Z) (ra rb A B : value) :
  pc s = VInt p ->
  operand s 1 = Ok ra -> reg_get s ra = Ok A ->
  operand s 2 = Ok rb -> reg_get s rb = Ok B ->
  A = VFloat S754_nan \/ B = VFloat S754_nan ->
  comp s = Ok (with_pc (VInt (p + 3)) s).
Proof.
  intros Hpc Ha HA Hb HB Hnan.
  apply (comp_unordered_keeps_fl s p ra rb A B Hpc Ha HA Hb HB).
  destruct Hnan as [-> | ->];
    [apply py_compare_nan_l|apply py_compare_nan_r].
Qed.

Lemma comp_on_nan_keeps_fl_witness :
  comp nan_state = Ok (with_pc (VInt (0 + 3)) nan_state)
  /\ fl (with_pc (VInt (0 + 3)) nan_state) = 4.
Proof.
  split; [|reflexivity].
  apply (comp_on_nan_keeps_fl nan_state 0 (VInt 0) (VInt 0)
           (VFloat S754_nan) (VFloat S754_nan)); try reflexivity.
  now left.
Defined.

(** ** [trace] *)

Lemma format_02X_int z : exists str, format_02X (VInt z) = Ok str.
Proof.
  unfold format_02X. destruct (z <? 0); [eauto|]. destruct (z <? 16); eauto.
Qed.

Lemma getitem_is_int (l : list value) i v :
  Forall is_int l -> getitem l i = Ok v -> is_int v.
Proof.
  intros Hall H. apply getitem_Ok in H as (k & _ & Hk).
  exact (proj1 (Forall_lookup is_int l) Hall k v Hk).
Qed.

Lemma reg_get_byte_Ok s i :
  wf s -> 0 <= i < 8 -> exists v, reg_get s (VInt i) = Ok v /\ reg s !! Z.to_nat i = Some v.
Proof.
  intros Hwf Hi.
  assert (Hidx : list_index (reg s) (VInt i) = Ok (Z.to_nat i))
    by (apply list_index_nonneg; rewrite (proj2 Hwf); lia).
  destruct (getitem_lookup _ _ _ Hidx) as (v & Hv & Hget). eauto.
Qed.

(** The register part of the line, when every register is an integer. *)
Lemma trace_regs_int s idxs :
  wf s -> Forall is_int (reg s) -> Forall (fun i => 0 <= i < 8) idxs ->
  exists str, trace_regs idxs s = Ok str.
Proof.
  intros Hwf Hint. induction 1 as [|i idxs Hi _ IH]; cbn [trace_regs]; [eauto|].
  destruct (reg_get_byte_Ok s i Hwf Hi) as (v & Hv & Hl).
  destruct (proj1 (Forall_lookup is_int (reg s)) Hint _ _ Hl) as [z ->].
  destruct (format_02X_int z) as [f Hf]. destruct IH as [tail Htail].
  rewrite Hv, bind_Ok, Hf, bind_Ok, Htail, bind_Ok. eauto.
Qed.

(** The register part of the line, when some listed register is a float:
    formatting stops at the first one with TypeError. *)
Lemma trace_regs_float s idxs :
  wf s -> Forall (fun i => 0 <= i < 8) idxs ->
  Exists (fun i => exists f, reg s !! Z.to_nat i = Some (VFloat f)) idxs ->
  trace_regs idxs s = Raise TypeError.
Proof.
  intros Hwf Hidx. induction Hidx as [|i idxs Hi _ IH]; intros Hex;
    [inversion Hex|]. cbn [trace_regs].
  destruct (reg_get_byte_Ok s i Hwf Hi) as (v & Hv & Hl).
  rewrite Hv, bind_Ok. destruct v as [z|f]; [|reflexivity].
  destruct (format_02X_int z) as [str Hstr]. rewrite Hstr, bind_Ok.
  inversion Hex as [? ? [f Hf]|? ? Hrest]; subst.
  - congruence.
  - now rewrite (IH Hrest).
Qed.

(** X17: [trace] reads the two cells after PC whether or not the
    instruction has operands, so with PC at 254 or beyond it raises
    IndexError, although an instruction there can be executed. *)
Theorem trace_fails_at_end_of_memory (s : cpu) (p : Z) :
  wf s -> pc s = VInt p -> 254 <= p ->
  trace s = Raise IndexError.
Proof.
  intros Hwf Hpc Hp. unfold trace.
  rewrite (operand_int s p 1 Hpc), (operand_int s p 2 Hpc), Hpc.
  assert (Hout : forall a, 256 <= a -> ram_read s (VInt a) = Raise IndexError).
  { intros a Ha. unfold ram_read, getitem.
    rewrite list_index_outside by (rewrite (proj1 Hwf); lia). reflexivity. }
  destruct (ram_read s (VInt p)) as [b0|e] eqn:E0.
  - rewrite bind_Ok.
    destruct (ram_read s (VInt (p + 1))) as [b1|e] eqn:E1.
    + rewrite bind_Ok, (Hout (p + 2)) by lia. reflexivity.
    + rewrite bind_Raise. f_equal.
      destruct (Z.eq_dec p 254) as [->|Hne].
      * exfalso. unfold ram_read in E1.
        destruct (getitem_lookup (ram s) (VInt 255) 255) as (x & _ & Hx).
        { apply list_index_nonneg. rewrite (proj1 Hwf). lia. }
        change (254 + 1) with 255 in E1. congruence.
      * rewrite Hout in E1 by lia. congruence.
  - rewrite bind_Raise. f_equal.
    destruct (Z_lt_le_dec p 256) as [Hlt|Hge].
    + exfalso. unfold ram_read in E0.
      destruct (getitem_lookup (ram s) (VInt p) (Z.to_nat p)) as (x & _ & Hx).
      { apply list_index_nonneg. rewrite (proj1 Hwf). lia. }
      congruence.
    + rewrite Hout in E0 by lia. congruence.
Qed.

Lemma trace_fails_at_end_of_memory_witness :
  trace (with_pc (VInt 254) (new_cpu 0)) = Raise IndexError
  /\ execute (with_pc (VInt 254) (new_cpu 0))
     = Ok (with_pc (VInt 255) (new_cpu 0)).
Proof.
  split; [|reflexivity].
  apply (trace_fails_at_end_of_memory (with_pc (VInt 254) (new_cpu 0)) 254).
  - split; reflexivity.
  - reflexivity.
  - lia.
Defined.

(** X18: with an integer PC at least two cells before the end of memory
    and integers in memory, [trace] prints exactly one line and changes
    nothing else when every register holds an integer, and raises
    TypeError as soon as some register holds a float (as R-A does after any
    DIV that divides). *)
Theorem trace_prints_or_rejects_floats (s : cpu) (p : Z) :
  wf s -> pc s = VInt p -> 0 <= p < 254 ->
  Forall is_int (ram s) ->
  (Forall is_int (reg s) ->
     exists line, trace s = Ok (print (EmitStr line) s))
  /\ ((exists (i : nat) f, reg s !! i = Some (VFloat f)) ->
      trace s = Raise TypeError).
Proof.
  intros Hwf Hpc Hp Hram.
  assert (Hcell : forall a, 0 <= a < 256 ->
            exists z, ram_read s (VInt a) = Ok (VInt z)).
  { intros a Ha.
    destruct (getitem_lookup (ram s) (VInt a) (Z.to_nat a)) as (x & _ & Hx).
    { apply list_index_nonneg. rewrite (proj1 Hwf). lia. }
    destruct (getitem_is_int _ _ _ Hram Hx) as [z ->]. eauto. }
  destruct (Hcell p) as [z0 H0]; [lia|].
  destruct (Hcell (p + 1)) as [z1 H1]; [lia|].
  destruct (Hcell (p + 2)) as [z2 H2]; [lia|].
  destruct (format_02X_int p) as [fp Hfp].
  destruct (format_02X_int (fl s)) as [ff Hff].
  destruct (format_02X_int z0) as [f0 Hf0].
  destruct (format_02X_int z1) as [f1 Hf1].
  destruct (format_02X_int z2) as [f2 Hf2].
  assert (Hidx : Forall (fun i => 0 <= i < 8) [0; 1; 2; 3; 4; 5; 6; 7])
    by (repeat constructor; lia).
  assert (Hhead : trace s =
    (regs ← trace_regs [0; 1; 2; 3; 4; 5; 6; 7] s;
     Ok (print (EmitStr ("TRACE: " ++ fp ++ " | " ++ ff ++ " | "
                           ++ f0 ++ " " ++ f1 ++ " " ++ f2 ++ " |" ++ regs)%string)
            s))).
  { unfold trace.
    rewrite (operand_int s p 1 Hpc), (operand_int s p 2 Hpc), Hpc.
    rewrite H0, bind_Ok, H1, bind_Ok, H2, bind_Ok, Hfp, bind_Ok, Hff, bind_Ok,
      Hf0, bind_Ok, Hf1, bind_Ok, Hf2, bind_Ok. reflexivity. }
  rewrite Hhead. split.
  - intros Hint.
    destruct (trace_regs_int s _ Hwf Hint Hidx) as [regs Hregs].
    rewrite Hregs, bind_Ok. eauto.
  - intros (i & f & Hi).
    rewrite (trace_regs_float s _ Hwf Hidx); [reflexivity|].
    pose proof (lookup_lt_Some _ _ _ Hi) as Hlt. rewrite (proj2 Hwf) in Hlt.
    apply Exists_exists. exists (Z.of_nat i). split.
    + do 8 (destruct i as [|i]; [apply list_elem_of_In; cbn; tauto|]). lia.
    + exists f. now rewrite Nat2Z.id.
Qed.

Lemma trace_prints_or_rejects_floats_witness :
  exists line, trace (boot 0 print8) = Ok (print (EmitStr line) (boot 0 print8)).
Proof.
  destruct (trace_prints_or_rejects_floats (boot 0 print8) 0) as [H _].
  - split; reflexivity.
  - reflexivity.
  - lia.
  - change (ram (boot 0 print8)) with (VInt <$> (print8 ++ replicate 250 0)).
    apply Forall_fmap, Forall_true. intros z. now exists z.
  - apply H. repeat constructor; eexists; reflexivity.
Defined.

(** A check of the formatter: every byte is written as exactly two
    characters, each an upper-case hexadecimal digit. *)
Lemma format_02X_byte n :
  0 <= n < 256 ->
  format_02X (VInt n)
  = Ok (String (hex_digit (n / 16)) (String (hex_digit (n mod 16)) "")).
Proof.
  intros Hn.
  assert (Hall : forallb (fun k =>
            match format_02X (VInt (Z.of_nat k)) with
            | Ok str =>
                String.eqb str
                  (String (hex_digit (Z.of_nat k / 16))
                     (String (hex_digit (Z.of_nat k mod 16)) ""))
            | Raise _ => false
            end) (seq 0 256) = true) by (vm_compute; reflexivity).
  rewrite forallb_forall in Hall.
  specialize (Hall (Z.to_nat n)). rewrite Z2Nat.id in Hall by lia.
  assert (Hin : In (Z.to_nat n) (seq 0 256)) by (apply in_seq; lia).
  specialize (Hall Hin).
  destruct (format_02X (VInt n)) as [str|]; [|discriminate].
  apply String.eqb_eq in Hall. now subst.
Qed.
